(** * data_organizer.py: folder templates, their materialization and the
      directory analysis, embedded in Rocq.

    The Python code is embedded shallowly.  [str] values are Rocq strings
    (the bytes of their UTF-8 encoding), dictionaries whose order matters
    are association structures, the dictionary of extension counts is a
    [gmap], and code that touches the file system threads an explicit
    file-system state and returns either a value or the raised exception.
    [str.lower()], whose Unicode tables are not reproduced here, is a
    parameter [lower] of the functions that call it. *)

From Stdlib Require Import ZArith NArith QArith Qabs String Ascii List Lia Bool.
From stdpp Require Import base gmap strings list fin_maps.

Local Close Scope Q_scope.
Local Open Scope Z_scope.

(** ** The [str] methods the program calls *)
Module PyStr.

(** [len(s)] *)
Definition len (s : string) : Z := Z.of_nat (String.length s).

(** The lower-case letter of an ASCII capital; every other byte is
    kept. *)
Definition lower_char (c : ascii) : ascii :=
  let n := N_of_ascii c in
  if ((65 <=? n) && (n <=? 90))%N then ascii_of_N (n + 32) else c.

(** What [s.lower()] is when [s] is ASCII text.  It is not [str.lower],
    which also maps the letters outside ASCII: the program is modelled with
    a parameter [lower] in its place, and this function serves to run the
    model on ASCII text. *)
Fixpoint ascii_lower (s : string) : string :=
  match s with
  | EmptyString => EmptyString
  | String c s' => String (lower_char c) (ascii_lower s')
  end.

(** [s.isascii()] *)
Fixpoint is_ascii (s : string) : bool :=
  match s with
  | EmptyString => true
  | String c s' => (N_of_ascii c <? 128)%N && is_ascii s'
  end.

(** What is used of [str.lower]: on ASCII text it maps the capitals to
    their lower-case letters and keeps the rest. *)
Definition lowers_ascii (lower : string -> string) : Prop :=
  forall s, is_ascii s = true -> lower s = ascii_lower s.

(** [s.replace(old, new)] for one-character [old] and [new]. *)
Fixpoint replace (old new : ascii) (s : string) : string :=
  match s with
  | EmptyString => EmptyString
  | String c s' =>
      String (if Ascii.eqb c old then new else c) (replace old new s')
  end.

(** Index of the last occurrence of [c] in [s], if there is one. *)
Fixpoint rindex (c : ascii) (s : string) : option nat :=
  match s with
  | EmptyString => None
  | String a s' =>
      match rindex c s' with
      | Some i => Some (S i)
      | None => if Ascii.eqb a c then Some O else None
      end
  end.

(** [s.rfind(c)]: the index of the last [c], or [-1]. *)
Definition rfind (c : ascii) (s : string) : Z :=
  match rindex c s with
  | Some i => Z.of_nat i
  | None => -1
  end.

(** [s[n:]] for a natural number [n]. *)
Fixpoint drop (n : nat) (s : string) : string :=
  match n, s with
  | O, _ => s
  | S _, EmptyString => EmptyString
  | S n', String _ s' => drop n' s'
  end.

(** [s[i:]]: a negative [i] counts from the end of the string. *)
Definition slice_from (i : Z) (s : string) : string :=
  if i <? 0 then drop (Z.to_nat (Z.max 0 (len s + i))) s
  else drop (Z.to_nat i) s.

(** [s.lstrip(c)] for a one-character [c]. *)
Fixpoint lstrip (c : ascii) (s : string) : string :=
  match s with
  | EmptyString => EmptyString
  | String a s' => if Ascii.eqb a c then lstrip c s' else s
  end.

(** [s.split(sep)] for a one-character [sep]; the result is never empty. *)
Fixpoint split (sep : ascii) (s : string) : list string :=
  match s with
  | EmptyString => [EmptyString]
  | String a s' =>
      if Ascii.eqb a sep then EmptyString :: split sep s'
      else match split sep s' with
           | [] => [String a EmptyString]
           | w :: ws => String a w :: ws
           end
  end.

(** [sep.join(l)] *)
Fixpoint join (sep : string) (l : list string) : string :=
  match l with
  | [] => EmptyString
  | [w] => w
  | w :: ws => w +:+ sep +:+ join sep ws
  end.

(** [s.startswith(c)] for a one-character [c]. *)
Definition startswith (c : ascii) (s : string) : bool :=
  match s with
  | String a _ => Ascii.eqb a c
  | EmptyString => false
  end.

(** [c in s] for a one-character [c]. *)
Fixpoint contains (c : ascii) (s : string) : bool :=
  match s with
  | EmptyString => false
  | String a s' => Ascii.eqb a c || contains c s'
  end.

End PyStr.

(** ** [pathlib]: pure POSIX paths *)
Module Pathlib.

(** A parsed path: the root ([""], ["/"] or ["//"]) and the components
    after it. *)
Record Path := MkPath { root : string; parts : list string }.

(** The two rules by which [PurePath.suffix] has been computed: up to
    Python 3.13 by [rfind], from 3.14 on after stripping leading dots. *)
Inductive suffix_rule := ByRfind | ByLstrip.

(** [splitroot]: one leading slash, or three and more, are the root ["/"];
    exactly two are the root ["//"]. *)
Definition splitroot (s : string) : string * string :=
  if PyStr.startswith "/" s then
    let stripped := PyStr.lstrip "/" s in
    if PyStr.len s - PyStr.len stripped =? 2 then ("//", stripped)
    else ("/", stripped)
  else ("", s).

(** The components of the part after the root: empty ones and ["."] are
    dropped. *)
Definition components (rel : string) : list string :=
  List.filter (fun x => negb (String.eqb x "") && negb (String.eqb x "."))
              (PyStr.split "/" rel).

(** [Path(s)] *)
Definition parse (s : string) : Path :=
  let '(r, rel) := splitroot s in MkPath r (components rel).

(** [p / s]: an absolute [s] replaces [p]. *)
Definition joinpath (p : Path) (s : string) : Path :=
  let q := parse s in
  if String.eqb (root q) "" then MkPath (root p) (parts p ++ parts q)
  else q.

(** [str(p)] *)
Definition str (p : Path) : string :=
  let s := root p +:+ PyStr.join "/" (parts p) in
  if String.eqb s "" then "." else s.

(** [p.name]: the final component, if any. *)
Definition name (p : Path) : string := List.last (parts p) "".

(** [suffix] of a final component [nm]. *)
Definition name_suffix (rule : suffix_rule) (nm : string) : string :=
  match rule with
  | ByRfind =>
      let i := PyStr.rfind "." nm in
      if (0 <? i) && (i <? PyStr.len nm - 1) then PyStr.slice_from i nm
      else ""
  | ByLstrip =>
      let nm' := PyStr.lstrip "." nm in
      let i := PyStr.rfind "." nm' in
      if i =? -1 then "" else PyStr.slice_from i nm'
  end.

(** [p.suffix] *)
Definition suffix (rule : suffix_rule) (p : Path) : string :=
  name_suffix rule (name p).

End Pathlib.

(** ** Exceptions and the result of a call *)

(** The exception classes the program can meet. *)
Inductive exn :=
| ValueError (msg : string)
| FileNotFoundError
| FileExistsError
| NotADirectoryError
| IsADirectoryError
| PermissionError
| OSError (errno : Z)
| OverflowError
| UnicodeEncodeError.

(** A call returns a value or raises. *)
Inductive result (A : Type) :=
| Ok (a : A)
| Raise (e : exn).
Arguments Ok {A} a.
Arguments Raise {A} e.

(** [isinstance(e, OSError)] *)
Definition is_OSError (e : exn) : bool :=
  match e with
  | ValueError _ | OverflowError | UnicodeEncodeError => false
  | _ => true
  end.

(** ** Folder templates *)

(** A template is a [dict] in insertion order; the value under a folder
    name is a [list] (a leaf) or again a [dict]. *)
Inductive template : Type :=
| TEmpty
| TEntry (folder_name : string) (value : contents) (rest : template)
with contents : Type :=
| Items (l : list string)
| Sub (t : template).

Scheme template_ind' := Induction for template Sort Prop
  with contents_ind' := Induction for contents Sort Prop.
Combined Scheme template_contents_ind from template_ind', contents_ind'.

(** A [dict] literal. *)
Fixpoint D (l : list (string * contents)) : template :=
  match l with
  | [] => TEmpty
  | (k, v) :: l' => TEntry k v (D l')
  end.

(** [len(t)] *)
Fixpoint template_len (t : template) : nat :=
  match t with
  | TEmpty => O
  | TEntry _ _ rest => S (template_len rest)
  end.

(** The number of keys at every nesting level, summed. *)
Fixpoint node_count (t : template) : nat :=
  match t with
  | TEmpty => O
  | TEntry _ v rest => S (contents_count v + node_count rest)
  end
with contents_count (v : contents) : nat :=
  match v with
  | Items _ => O
  | Sub t => node_count t
  end.

Module Catalog.

Definition leaf : contents := Items [].

Definition by_type : template := D [
  ("Documents", Sub (D [
     ("PDFs", leaf); ("Word_Documents", leaf); ("Spreadsheets", leaf);
     ("Presentations", leaf); ("Text_Files", leaf); ("Archives", leaf)]));
  ("Media", Sub (D [
     ("Images", Sub (D [
        ("Photos", leaf); ("Screenshots", leaf); ("Graphics", leaf);
        ("Icons", leaf)]));
     ("Videos", Sub (D [
        ("Personal", leaf); ("Work", leaf); ("Educational", leaf)]));
     ("Audio", Sub (D [
        ("Music", leaf); ("Recordings", leaf); ("Podcasts", leaf)]))]));
  ("Code_and_Development", Sub (D [
     ("Projects", leaf); ("Scripts", leaf); ("Documentation", leaf);
     ("Resources", leaf)]));
  ("Data_Files", Sub (D [
     ("Databases", leaf); ("CSV_Files", leaf); ("JSON_Files", leaf);
     ("XML_Files", leaf); ("Logs", leaf)]));
  ("Miscellaneous", Sub (D [
     ("Temporary", leaf); ("Unsorted", leaf); ("To_Review", leaf)]))].

Definition by_project : template := D [
  ("Active_Projects", Sub (D [
     ("Project_A", Sub (D [
        ("Documents", leaf); ("Media", leaf); ("Data", leaf);
        ("Resources", leaf)]));
     ("Project_B", Sub (D [
        ("Documents", leaf); ("Media", leaf); ("Data", leaf);
        ("Resources", leaf)]))]));
  ("Completed_Projects", Sub (D [
     ("Archive_2024", leaf); ("Archive_2023", leaf)]));
  ("Templates_and_Resources", Sub (D [
     ("Document_Templates", leaf); ("Media_Assets", leaf);
     ("Reference_Materials", leaf)]));
  ("Inbox", Sub (D [("New_Items", leaf); ("To_Categorize", leaf)]))].

Definition by_date : template := D [
  ("2024", Sub (D [
     ("Q1_Jan_Mar", Sub (D [
        ("January", leaf); ("February", leaf); ("March", leaf)]));
     ("Q2_Apr_Jun", Sub (D [
        ("April", leaf); ("May", leaf); ("June", leaf)]));
     ("Q3_Jul_Sep", Sub (D [
        ("July", leaf); ("August", leaf); ("September", leaf)]));
     ("Q4_Oct_Dec", Sub (D [
        ("October", leaf); ("November", leaf); ("December", leaf)]))]));
  ("2023", Sub (D [("Archive", leaf)]))].

Definition hybrid_approach : template := D [
  ("01_Inbox", Sub (D [
     ("New_Items", leaf); ("Processing", leaf); ("Quick_Access", leaf)]));
  ("02_Active_Work", Sub (D [
     ("Current_Projects", Sub (D [
        ("Project_Alpha", Sub (D [
           ("Documents", leaf); ("Media", leaf); ("Data", leaf)]))]));
     ("Daily_Tasks", leaf); ("Meetings_and_Notes", leaf)]));
  ("03_Resources", Sub (D [
     ("Templates", leaf); ("Reference_Materials", leaf);
     ("Tools_and_Utilities", leaf)]));
  ("04_Archive", Sub (D [
     ("By_Year", Sub (D [("2024", leaf); ("2023", leaf)]));
     ("Completed_Projects", leaf)]));
  ("05_Personal", Sub (D [
     ("Photos", leaf); ("Documents", leaf); ("Media", leaf)]))].

(** [self.base_structures] *)
Definition base_structures : list (string * template) :=
  [("by_type", by_type); ("by_project", by_project);
   ("by_date", by_date); ("hybrid_approach", hybrid_approach)].

(** [self.file_type_mappings], one definition per key. *)
Definition documents : list string :=
  [".pdf"; ".doc"; ".docx"; ".txt"; ".rtf"; ".odt"].
Definition spreadsheets : list string := [".xls"; ".xlsx"; ".csv"; ".ods"].
Definition presentations : list string := [".ppt"; ".pptx"; ".odp"].
Definition images : list string :=
  [".jpg"; ".jpeg"; ".png"; ".gif"; ".bmp"; ".tiff"; ".svg"].
Definition videos : list string :=
  [".mp4"; ".avi"; ".mov"; ".wmv"; ".flv"; ".mkv"].
Definition audio : list string := [".mp3"; ".wav"; ".flac"; ".aac"; ".ogg"].
Definition archives : list string := [".zip"; ".rar"; ".7z"; ".tar"; ".gz"].
Definition code : list string :=
  [".py"; ".js"; ".html"; ".css"; ".java"; ".cpp"; ".c"].
Definition data : list string := [".json"; ".xml"; ".sql"; ".db"; ".sqlite"].

Definition file_type_mappings : list (string * list string) :=
  [("documents", documents); ("spreadsheets", spreadsheets);
   ("presentations", presentations); ("images", images);
   ("videos", videos); ("audio", audio); ("archives", archives);
   ("code", code); ("data", data)].

End Catalog.

(** [d[k]] on a dictionary kept as an association list. *)
Fixpoint dict_get {V : Type} (d : list (string * V)) (k : string) : option V :=
  match d with
  | [] => None
  | (k', v) :: d' => if String.eqb k k' then Some v else dict_get d' k
  end.

(** [suggest_structure(approach)] *)
Definition suggest_structure (approach : string) : result template :=
  match dict_get Catalog.base_structures approach with
  | None => Raise (ValueError ("Unknown approach: " +:+ approach))
  | Some t => Ok t
  end.

(** ** The file system *)

(** What a path names: a directory, or a regular file with its text. *)
Inductive node :=
| Dir
| File (content : string).

Global Instance node_eq_dec : EqDecision node.
Proof. solve_decision. Defined.

(** The file system is a finite map from absolute paths to nodes.  A path
    is the list of its components, the last one first, so that the tail of a
    key is its parent and [[]] is the root directory.  The disks described
    are those without symbolic links on which the process is allowed every
    operation: there are no permissions, no quotas and no limits on the
    length of names, and text is written in an encoding that has all its
    characters.  The operating system resolves a component [".."] to the
    parent directory; a key keeps it as a name, so that a key tells where a
    path lies only for a path without [".."]: the properties that depend on
    where a path lies are stated for such paths. *)
Abbreviation fsmap := (gmap (list string) node).

(** A computation on a state [S] that returns or raises; the state is
    kept in both cases, since what was written before an exception stays
    written. *)
Definition M (S A : Type) : Type := S -> result A * S.

Definition ret {S A} (a : A) : M S A := fun s => (Ok a, s).

Definition raise {S A} (e : exn) : M S A := fun s => (Raise e, s).

Definition bind {S A B} (m : M S A) (k : A -> M S B) : M S B :=
  fun s =>
    match m s with
    | (Ok a, s') => k a s'
    | (Raise e, s') => (Raise e, s')
    end.

(** [try: m except <handler>]: the handler sees the exception and the state
    the body left. *)
Definition try_except {S A} (m : M S A) (h : exn -> M S A) : M S A :=
  fun s =>
    match m s with
    | (Ok a, s') => (Ok a, s')
    | (Raise e, s') => h e s'
    end.

Definition get {S} : M S S := fun s => (Ok s, s).

Definition put {S} (s : S) : M S unit := fun _ => (Ok tt, s).

Notation "'let!' x ':=' m 'in' k" := (bind m (fun x => k))
  (at level 10, x name, m at level 100, k at level 200).
Notation "m ';;;' k" := (bind m (fun _ => k))
  (at level 100, k at level 200, right associativity).

(** [for x in l: body(x)] *)
Fixpoint for_each {S A} (l : list A) (body : A -> M S unit) : M S unit :=
  match l with
  | [] => ret tt
  | x :: l' => body x ;;; for_each l' body
  end.

Module FS.

(** [os.stat(k)]: walks the path from the root. *)
Fixpoint stat (fs : fsmap) (k : list string) : result node :=
  match k with
  | [] => Ok Dir
  | _ :: parent =>
      match stat fs parent with
      | Ok Dir =>
          match fs !! k with
          | Some n => Ok n
          | None => Raise FileNotFoundError
          end
      | Ok (File _) => Raise NotADirectoryError
      | Raise e => Raise e
      end
  end.

(** [Path.exists()] *)
Definition exists_ (k : list string) : M fsmap bool :=
  fun fs => (Ok (match stat fs k with Ok _ => true | Raise _ => false end), fs).

(** [Path.is_dir()] *)
Definition is_dir (k : list string) : M fsmap bool :=
  fun fs => (Ok (match stat fs k with Ok Dir => true | _ => false end), fs).

(** [os.mkdir(k)] *)
Definition os_mkdir (k : list string) : M fsmap unit :=
  fun fs =>
    match k with
    | [] => (Raise FileExistsError, fs)
    | _ :: parent =>
        match stat fs parent with
        | Ok Dir =>
            match fs !! k with
            | Some _ => (Raise FileExistsError, fs)
            | None => (Ok tt, <[k := Dir]> fs)
            end
        | Ok (File _) => (Raise NotADirectoryError, fs)
        | Raise e => (Raise e, fs)
        end
    end.

(** [Path.mkdir(parents=False, exist_ok=True)] *)
Definition mkdir_exist_ok (k : list string) : M fsmap unit :=
  try_except (os_mkdir k) (fun e =>
    match e with
    | FileNotFoundError => raise e
    | _ =>
        if is_OSError e then
          let! d := is_dir k in
          if d then ret tt else raise e
        else raise e
    end).

(** [Path.mkdir(parents=True, exist_ok=True)] for the path whose components
    are [rparts] (last one first) below [anchor], the root or the working
    directory.  A missing parent is created by the same call on the parent
    path, as long as the path has a parent other than itself. *)
Fixpoint mkdir (anchor rparts : list string) : M fsmap unit :=
  try_except (os_mkdir (rparts ++ anchor)) (fun e =>
    match e with
    | FileNotFoundError =>
        match rparts with
        | [] => raise e
        | _ :: rparent =>
            mkdir anchor rparent ;;;
            mkdir_exist_ok (rparts ++ anchor)
        end
    | _ =>
        if is_OSError e then
          let! d := is_dir (rparts ++ anchor) in
          if d then ret tt else raise e
        else raise e
    end).

(** [open(k, 'w')] followed by [f.write(text)] and the closing of the file. *)
Definition write_text (k : list string) (text : string) : M fsmap unit :=
  fun fs =>
    match k with
    | [] => (Raise IsADirectoryError, fs)
    | _ :: parent =>
        match stat fs parent with
        | Ok Dir =>
            match fs !! k with
            | Some Dir => (Raise IsADirectoryError, fs)
            | _ => (Ok tt, <[k := File text]> fs)
            end
        | Ok (File _) => (Raise NotADirectoryError, fs)
        | Raise e => (Raise e, fs)
        end
    end.

End FS.

(** ** StructureMaterializer: [create_folder_structure] *)
Module Materializer.
Import Pathlib.

(** The line feed of the f-string. *)
Definition nl : string := String "010"%char EmptyString.

(** The text written to a folder's [README.md]; [lower] is
    [str.lower]. *)
Definition readme_text (lower : string -> string) (folder_name : string)
  : string :=
  "# " +:+ folder_name +:+ nl +:+ nl +:+
  "This folder is for organizing " +:+
  PyStr.replace "_" " " (lower folder_name) +:+ " files." +:+ nl.

(** The variables of one call: the list [created_folders] that the inner
    function appends to, and the file system. *)
Record mstate := MState { created_folders : list string; disk : fsmap }.

(** A file-system operation inside a call. *)
Definition on_disk {A} (m : M fsmap A) : M mstate A :=
  fun s => let '(r, d) := m (disk s) in (r, MState (created_folders s) d).

(** [created_folders.append(p)] *)
Definition append_created (p : string) : M mstate unit :=
  fun s => (Ok tt, MState (created_folders s ++ [p]) (disk s)).

Section WithCwd.

(** [str.lower] *)
Variable lower : string -> string.

(** The components of the working directory of the process. *)
Variable cwd : list string.

(** Where the operating system starts to resolve [p]. *)
Definition anchor (p : Path) : list string :=
  if String.eqb (root p) "" then rev cwd else [].

(** The key of [p] in the file system. *)
Definition key (p : Path) : list string := rev (parts p) ++ anchor p.

(** [p.mkdir(parents=True, exist_ok=True)] *)
Definition path_mkdir (p : Path) : M fsmap unit :=
  FS.mkdir (anchor p) (rev (parts p)).

(** [p.exists()] *)
Definition path_exists (p : Path) : M fsmap bool := FS.exists_ (key p).

(** [with open(p, 'w') as f: f.write(text)] *)
Definition open_write (p : Path) (text : string) : M fsmap unit :=
  FS.write_text (key p) text.

(** What the loop body does on the disk when [dry_run] is false. *)
Definition make_folder (folder_path : Path) (folder_name : string)
  : M fsmap unit :=
  path_mkdir folder_path ;;;
  let readme_path := joinpath folder_path "README.md" in
  let! present := path_exists readme_path in
  if negb present then open_write readme_path (readme_text lower folder_name)
  else ret tt.

(** The inner function [create_recursive(current_path, struct)]. *)
Fixpoint create_recursive (dry_run : bool) (current_path : Path)
  (struct : template) : M mstate unit :=
  match struct with
  | TEmpty => ret tt
  | TEntry folder_name value rest =>
      let folder_path := joinpath current_path folder_name in
      append_created (str folder_path) ;;;
      (if negb dry_run then on_disk (make_folder folder_path folder_name)
       else ret tt) ;;;
      match value with
      | Sub t => create_recursive dry_run folder_path t
      | Items _ => ret tt
      end ;;;
      create_recursive dry_run current_path rest
  end.

(** [create_folder_structure(base_path, structure, dry_run)] *)
Definition create_folder_structure (base_path : string)
  (structure : template) (dry_run : bool) : M fsmap (list string) :=
  fun fs =>
    match create_recursive dry_run (parse base_path) structure
            (MState [] fs) with
    | (Ok _, s) => (Ok (created_folders s), disk s)
    | (Raise e, s) => (Raise e, disk s)
    end.

End WithCwd.

(** The folder nodes of a template below [current_path], parent before
    children and siblings in the order of the template: each with its path
    and its folder name. *)
Fixpoint nodes (current_path : Path) (t : template) : list (Path * string) :=
  match t with
  | TEmpty => []
  | TEntry folder_name value rest =>
      let folder_path := joinpath current_path folder_name in
      (folder_path, folder_name)
        :: match value with
           | Sub t' => nodes folder_path t'
           | Items _ => []
           end
        ++ nodes current_path rest
  end.

(** The file-system work of a call that is not a dry run, one folder
    node after the other. *)
Definition make_folders (lower : string -> string) (cwd : list string)
  (l : list (Path * string)) : M fsmap unit :=
  for_each l (fun n => make_folder lower cwd (fst n) (snd n)).

(** A folder is in place: it is a directory and holds an entry named
    [README.md]. *)
Definition in_place (cwd : list string) (fs : fsmap) (p : Path) : Prop :=
  FS.stat fs (key cwd p) = Ok Dir
  /\ exists x, FS.stat fs ("README.md" :: key cwd p) = Ok x.

(** The pre-order sequence of path strings. *)
Definition preorder (current_path : Path) (t : template) : list string :=
  List.map (fun n => str (fst n)) (nodes current_path t).

End Materializer.

(** ** DataAnalyzer: [analyze_existing_data] *)
Module Analyzer.
Import Pathlib.

(** An entry of [large_files]. *)
Record large_file := LargeFile { lf_path : string; lf_size_mb : Q }.

(** The dictionary [file_analysis]. *)
Record file_analysis := FileAnalysis {
  total_files : Z;
  file_types : gmap string Z;
  large_files : list large_file;
  recommendations : list string }.

(** What [analyze_existing_data] returns: the dictionary with the one key
    ['error'], or [file_analysis]. *)
Inductive analysis :=
| ErrorDict (error : string)
| Report (fa : file_analysis).

(** The keys of the returned dictionary. *)
Definition keys (a : analysis) : list string :=
  match a with
  | ErrorDict _ => ["error"]
  | Report _ => ["total_files"; "file_types"; "large_files"; "recommendations"]
  end.

(** [a.get(field)] for each field of a report. *)
Definition get_total_files (a : analysis) : option Z :=
  match a with Report fa => Some (total_files fa) | ErrorDict _ => None end.
Definition get_file_types (a : analysis) : option (gmap string Z) :=
  match a with Report fa => Some (file_types fa) | ErrorDict _ => None end.
Definition get_large_files (a : analysis) : option (list large_file) :=
  match a with Report fa => Some (large_files fa) | ErrorDict _ => None end.
Definition get_recommendations (a : analysis) : option (list string) :=
  match a with Report fa => Some (recommendations fa) | ErrorDict _ => None end.
Definition get_error (a : analysis) : option string :=
  match a with Report _ => None | ErrorDict msg => Some msg end.

(** What the analysis sees of the file system, call by call.
    [Path.exists()] and [Path.is_file()] answer, or raise: up to Python
    3.13 they let through every [OSError] of the underlying [stat] other
    than ENOENT, ENOTDIR, EBADF and ELOOP, for instance [PermissionError].
    [rglob('*')] yields entries in some order, and then ends or raises.
    [stat().st_size] answers a size or raises. *)
Record os_view := OsView {
  path_exists : Path -> result bool;
  rglob : Path -> list Path * option exn;
  is_file : Path -> result bool;
  st_size : Path -> result Z }.

(** The integer a double keeps of the integer [n]: [n] itself when it has
    at most 53 significant bits, and otherwise the nearest integer with 53
    significant bits, a tie going to the one whose last kept bit is 0. *)
Definition round53 (n : Z) : Z :=
  let a := Z.abs n in
  let e := Z.log2 a - 52 in
  if e <=? 0 then n
  else
    let q := a / 2 ^ e in
    let r := a mod 2 ^ e in
    let q' := match 2 * r ?= 2 ^ e with
              | Lt => q
              | Gt => q + 1
              | Eq => if Z.even q then q else q + 1
              end in
    Z.sgn n * (q' * 2 ^ e).

(** [size / (1024 * 1024)]: the true division of two integers gives the
    double nearest to the quotient, or raises [OverflowError] when that is
    beyond the doubles.  The divisor being a power of 2, the double is
    [round53 size] divided by it; its value is kept as a rational. *)
Definition megabytes (size : Z) : result Q :=
  if 2 ^ 1044 <=? Z.abs (round53 size) then Raise OverflowError
  else Ok (Qmake (round53 size) (1024 * 1024)).

(** [x > 100] *)
Definition exceeds_100 (x : Q) : bool :=
  match Qcompare x (Qmake 100 1) with
  | Gt => true
  | _ => false
  end.

(** [round(x, 2)] of a double of value [x]: the multiple of 1/100 nearest
    to [x], a tie going to the even one.  The double that Python stores is
    the one nearest to this decimal number; for the size of a file, which
    is below 2^63 bytes, the decimal number has at most 15 significant
    digits, so that it is also what Python prints for the stored double.
    The decimal number is what is kept here. *)
Definition round2 (x : Q) : Q :=
  let num := Qnum x * 100 in
  let den := Zpos (Qden x) in
  let q := num / den in
  let r := num mod den in
  let h := match 2 * r ?= den with
           | Lt => q
           | Gt => q + 1
           | Eq => if Z.even q then q else q + 1
           end in
  Qmake h 100.

(** [sum(file_types.get(ext, 0) for ext in exts)] *)
Definition sum_counts (ft : gmap string Z) (exts : list string) : Z :=
  fold_left (fun acc ext => acc + default 0 (ft !! ext)) exts 0.

Definition rec_by_project : string :=
  "Consider using 'by_project' approach - you have many document files".
Definition rec_by_type : string :=
  "Consider using 'by_type' approach - you have many media files".
Definition rec_hybrid : string :=
  "Consider using 'hybrid_approach' for balanced organization".
Definition rec_large_files : string :=
  "Consider creating a separate 'Large_Files' folder for files >100MB".
Definition rec_by_date : string :=
  "Consider using date-based organization due to large number of files".

(** The part of the function after the loop: the list [recommendations],
    built by three statements. *)
Definition generate_recommendations (fa : file_analysis) : list string :=
  let recommendations := [] in
  let doc_files := sum_counts (file_types fa) Catalog.documents in
  let media_files :=
    sum_counts (file_types fa)
      (Catalog.images ++ Catalog.videos ++ Catalog.audio) in
  let recommendations :=
    if doc_files >? media_files then recommendations ++ [rec_by_project]
    else if media_files >? doc_files then recommendations ++ [rec_by_type]
    else recommendations ++ [rec_hybrid] in
  let recommendations :=
    if Z.of_nat (length (large_files fa)) >? 0
    then recommendations ++ [rec_large_files]
    else recommendations in
  let recommendations :=
    if total_files fa >? 1000 then recommendations ++ [rec_by_date]
    else recommendations in
  recommendations.

(** The assignments to the entries of [file_analysis]. *)
Definition incr_total_files : M file_analysis unit :=
  fun fa => (Ok tt, FileAnalysis (total_files fa + 1) (file_types fa)
                      (large_files fa) (recommendations fa)).

Definition count_file_type (suffix : string) : M file_analysis unit :=
  fun fa => (Ok tt, FileAnalysis (total_files fa)
                      (<[suffix := default 0 (file_types fa !! suffix) + 1]>
                         (file_types fa))
                      (large_files fa) (recommendations fa)).

Definition append_large_file (e : large_file) : M file_analysis unit :=
  fun fa => (Ok tt, FileAnalysis (total_files fa) (file_types fa)
                      (large_files fa ++ [e]) (recommendations fa)).

Definition set_recommendations (l : list string) : M file_analysis unit :=
  fun fa => (Ok tt, FileAnalysis (total_files fa) (file_types fa)
                      (large_files fa) l).

(** A call that reads the file system and leaves [file_analysis] alone. *)
Definition call {A} (r : result A) : M file_analysis A :=
  fun fa => (r, fa).

Section WithOS.

(** [str.lower] *)
Variable lower : string -> string.
Variable rule : suffix_rule.
Variable os : os_view.

(** The [try] block of the loop. *)
Definition check_large (file_path : Path) : M file_analysis unit :=
  let! size := call (st_size os file_path) in
  let! size_mb := call (megabytes size) in
  if exceeds_100 size_mb
  then append_large_file (LargeFile (str file_path) (round2 size_mb))
  else ret tt.

(** The body of the loop over [data_path.rglob('*')]: the call of
    [is_file()] is outside the [try]. *)
Definition visit (file_path : Path) : M file_analysis unit :=
  let! regular := call (is_file os file_path) in
  if regular then
    incr_total_files ;;;
    let suffix := lower (Pathlib.suffix rule file_path) in
    count_file_type suffix ;;;
    try_except (check_large file_path) (fun _ => ret tt)
  else ret tt.

(** The function from the first statement after the existence test on. *)
Definition analyze_files (data_path : Path) : M file_analysis unit :=
  for_each (fst (rglob os data_path)) visit ;;;
  match snd (rglob os data_path) with
  | Some e => raise e
  | None => ret tt
  end ;;;
  let! fa := get in
  set_recommendations (generate_recommendations fa).

(** [analyze_existing_data(data_path)] *)
Definition analyze_existing_data (data_path : string) : result analysis :=
  let data_path := parse data_path in
  match path_exists os data_path with
  | Raise e => Raise e
  | Ok false =>
      Ok (ErrorDict ("Path " +:+ str data_path +:+ " does not exist"))
  | Ok true =>
      match analyze_files data_path (FileAnalysis 0 ∅ [] []) with
      | (Ok _, fa) => Ok (Report fa)
      | (Raise e, _) => Raise e
      end
  end.

End WithOS.

End Analyzer.

(** ** Definitions in which the properties are stated *)
Module Spec.
Import Pathlib Analyzer.

(** [is_file()] answered [True]. *)
Definition is_regular (os : os_view) (p : Path) : bool :=
  match is_file os p with
  | Ok true => true
  | _ => false
  end.

(** The regular files among what [rglob] yields below [data_path], in the
    order of the walk. *)
Definition files (os : os_view) (data_path : Path) : list Path :=
  List.filter (is_regular os) (fst (rglob os data_path)).

(** [is_file()] raises on none of the entries of [l]. *)
Definition answered (os : os_view) (l : list Path) : bool :=
  forallb (fun q => match is_file os q with
                    | Ok _ => true
                    | Raise _ => false
                    end) l.

(** The walk below [data_path] runs to its end: [rglob] does not raise,
    and [is_file()] raises on none of the entries. *)
Definition calm (os : os_view) (data_path : Path) : bool :=
  match snd (rglob os data_path) with
  | None => true
  | Some _ => false
  end
  && answered os (fst (rglob os data_path)).

(** The sum of all the counts of a dictionary of counts. *)
Definition map_total (m : gmap string Z) : Z :=
  map_fold (fun _ n acc => n + acc) 0 m.

(** The entry of [large_files] a file gives rise to, if any. *)
Definition large_entry (os : os_view) (p : Path) : option large_file :=
  match st_size os p with
  | Ok size =>
      match megabytes size with
      | Ok size_mb =>
          if exceeds_100 size_mb
          then Some (LargeFile (str p) (round2 size_mb))
          else None
      | Raise _ => None
      end
  | Raise _ => None
  end.

(** The first recommendation, from the two counts. *)
Definition rule1 (doc_count media_count : Z) : list string :=
  if doc_count >? media_count then [rec_by_project]
  else if media_count >? doc_count then [rec_by_type]
  else [rec_hybrid].

(** The second recommendation, from the list of large files. *)
Definition rule2 (large : list large_file) : list string :=
  match large with
  | [] => []
  | _ :: _ => [rec_large_files]
  end.

(** The third recommendation, from the number of files. *)
Definition rule3 (total : Z) : list string :=
  if total >? 1000 then [rec_by_date] else [].

(** The extensions of the categories 'images', 'videos' and 'audio'. *)
Definition media_extensions : list string :=
  Catalog.images ++ Catalog.videos ++ Catalog.audio.

Section WithLower.

(** [str.lower] *)
Variable lower : string -> string.
Variable rule : suffix_rule.

(** The key under which the analysis counts a file. *)
Definition extension (p : Path) : string := lower (suffix rule p).

(** The number of paths of [l] counted under the key [k]. *)
Definition count_ext (k : string) (l : list Path) : Z :=
  Z.of_nat (length (List.filter (fun p => String.eqb (extension p) k) l)).

(** The number of paths of [l] counted under one of the keys [exts]. *)
Definition count_in (exts : list string) (l : list Path) : Z :=
  Z.of_nat (length (List.filter
    (fun p => existsb (String.eqb (extension p)) exts) l)).

(** The extension as the specification words it: the lowercased substring
    of the name from the last ['.'] onward, or the empty string if the name
    contains no ['.']. *)
Definition spec_extension (nm : string) : string :=
  match PyStr.rindex "." nm with
  | Some i => lower (PyStr.drop i nm)
  | None => ""
  end.

(** One round of the loop as a function on [file_analysis], for an entry
    on which [is_file()] does not raise. *)
Definition visit_fun (os : os_view) (p : Path) (fa : file_analysis)
  : file_analysis :=
  if is_regular os p then
    FileAnalysis (total_files fa + 1)
      (<[extension p := default 0 (file_types fa !! extension p) + 1]>
         (file_types fa))
      (large_files fa ++ option_list (large_entry os p))
      (recommendations fa)
  else fa.

(** The loop as a function on [file_analysis]. *)
Definition scan (os : os_view) (l : list Path) (fa : file_analysis)
  : file_analysis :=
  fold_left (fun a p => visit_fun os p a) l fa.

(** The report of the analysis of an existing [data_path] below which the
    walk is calm. *)
Definition report (os : os_view) (data_path : Path) : file_analysis :=
  let fa := scan os (fst (rglob os data_path)) (FileAnalysis 0 ∅ [] []) in
  FileAnalysis (total_files fa) (file_types fa) (large_files fa)
    (generate_recommendations fa).

End WithLower.

(** A view in which every path exists and the walk below any path yields
    the one regular file [nm], whose size is read as [size]. *)
Definition one_file_view (nm : string) (size : result Z) : os_view :=
  OsView (fun _ => Ok true) (fun p => ([joinpath p nm], None))
         (fun _ => Ok true) (fun _ => size).

(** The view [os] with every failing size read answered by [size]. *)
Definition stat_failures_as (size : Z) (os : os_view) : os_view :=
  OsView (path_exists os) (rglob os) (is_file os)
         (fun p => match st_size os p with
                   | Ok n => Ok n
                   | Raise _ => Ok size
                   end).

(** A view in which every path exists and the walk below any path yields
    one regular file per entry, in this order; the size of a file is read as
    its entry says. *)
Definition listing_view (entries : list (string * result Z)) : os_view :=
  OsView (fun _ => Ok true)
         (fun p => (List.map (fun e => joinpath p (fst e)) entries, None))
         (fun _ => Ok true)
         (fun p => match dict_get entries (name p) with
                   | Some r => r
                   | None => Raise FileNotFoundError
                   end).

(** A view in which no path exists. *)
Definition empty_view : os_view :=
  OsView (fun _ => Ok false) (fun _ => ([], None)) (fun _ => Ok false)
         (fun _ => Raise FileNotFoundError).

(** An empty disk as Python up to 3.13 sees it: no path exists, and the
    [stat] of a path with a component of more than 255 bytes fails with
    ENAMETOOLONG (errno 36), which [exists()] and [is_file()] let
    through. *)
Definition empty_disk_view : os_view :=
  let too_long := fun p : Path =>
    existsb (fun c => 255 <? PyStr.len c) (parts p) in
  OsView (fun p => if too_long p then Raise (OSError 36) else Ok false)
         (fun _ => ([], None))
         (fun p => if too_long p then Raise (OSError 36) else Ok false)
         (fun p => if too_long p then Raise (OSError 36)
                   else Raise FileNotFoundError).

(** A name of 256 bytes. *)
Definition long_name : string :=
  Nat.iter 256 (String "a") EmptyString.

(** A directory that may be listed but not searched (mode [r--]), as
    Python up to 3.13 sees it: the walk yields the file [nm] in it, and
    every [stat] of that file fails for lack of permission, in [is_file()]
    as in [stat()]. *)
Definition unsearchable_dir_view (nm : string) : os_view :=
  OsView (fun _ => Ok true) (fun p => ([joinpath p nm], None))
         (fun _ => Raise PermissionError) (fun _ => Raise PermissionError).

End Spec.

(** ** [print_structure] *)
Module Printer.

(** The two pictograms of the f-strings, as their UTF-8 bytes. *)
Definition folder_icon : string :=
  String "240" (String "159" (String "147" (String "129" EmptyString))).
Definition page_icon : string :=
  String "240" (String "159" (String "147" (String "132" EmptyString))).

(** [s * n]: the empty string when [n] is not positive. *)
Definition str_mul (s : string) (n : Z) : string :=
  Nat.iter (Z.to_nat n) (String.append s) EmptyString.

(** [print(line)]: the standard output is the list of the lines written so
    far.  [refuses out line] is the exception that the stream raises when it
    is asked for [line] after the lines [out] and cannot take it:
    [UnicodeEncodeError] when its encoding lacks a character of the line, an
    [OSError] when the stream has been closed or the disk behind it is full;
    it is [None] when the stream writes the line.  A line that is refused
    is not written. *)
Definition print (refuses : list string -> string -> option exn)
  (line : string) : M (list string) unit :=
  fun out =>
    match refuses out line with
    | Some e => (Raise e, out)
    | None => (Ok tt, out ++ [line])
    end.

(** The line of a folder and the line of an item of a list. *)
Definition folder_line (indent : Z) (folder_name : string) : string :=
  str_mul "  " indent +:+ folder_icon +:+ " " +:+ folder_name.
Definition item_line (indent : Z) (item : string) : string :=
  str_mul "  " (indent + 1) +:+ page_icon +:+ " " +:+ item.

(** [print_structure(structure, indent)] *)
Fixpoint print_structure (refuses : list string -> string -> option exn)
  (structure : template) (indent : Z) : M (list string) unit :=
  match structure with
  | TEmpty => ret tt
  | TEntry folder_name contents rest =>
      print refuses (folder_line indent folder_name) ;;;
      match contents with
      | Sub t => print_structure refuses t (indent + 1)
      | Items l =>
          match l with
          | [] => ret tt
          | _ :: _ =>
              for_each l (fun item => print refuses (item_line indent item))
          end
      end ;;;
      print_structure refuses rest indent
  end.

(** A standard output that takes every line, as one encoded in UTF-8 that
    stays open. *)
Definition utf8_stream : list string -> string -> option exn :=
  fun _ _ => None.

(** A standard output whose encoding has the ASCII characters only. *)
Definition ascii_stream : list string -> string -> option exn :=
  fun _ line => if PyStr.is_ascii line then None else Some UnicodeEncodeError.

(** A standard output that is closed by the other end (errno 32, EPIPE)
    once [n] lines are written. *)
Definition closing_stream (n : nat) : list string -> string -> option exn :=
  fun out _ => if (length out <? n)%nat then None else Some (OSError 32).

(** The number of list items at every nesting level, summed. *)
Fixpoint item_count (t : template) : nat :=
  match t with
  | TEmpty => O
  | TEntry _ v rest =>
      (match v with
       | Items l => length l
       | Sub t' => item_count t'
       end + item_count rest)%nat
  end.

(** The folders of a template with the indentation at which each is
    printed, parent before children. *)
Fixpoint rows (indent : Z) (t : template) : list (Z * string) :=
  match t with
  | TEmpty => []
  | TEntry folder_name v rest =>
      (indent, folder_name)
        :: match v with
           | Sub t' => rows (indent + 1) t'
           | Items _ => []
           end
        ++ rows indent rest
  end.

End Printer.

(** ** [generate_organization_plan] *)
Module Planner.
Import Pathlib Analyzer.

(** The dictionary [plan]. *)
Record plan := Plan {
  timestamp : string;
  plan_data_path : string;
  plan_approach : string;
  plan_analysis : analysis;
  suggested_structure : template;
  implementation_steps : list string }.

Definition the_steps : list string :=
  ["1. Backup your original data";
   "2. Create the suggested folder structure";
   "3. Sort files by type/category";
   "4. Move files to appropriate folders";
   "5. Create index/catalog files";
   "6. Set up regular maintenance schedule"].

Section WithEnvironment.

(** What the function writes to is kept abstract: [W] is the state of the
    world outside, [dump f p] stands for
    [with open(f, 'w') as out: json.dump(p, out, indent=2)], and [now] for
    [datetime.now().isoformat()]. *)
Variable W : Type.
Variable now : string.
Variable dump : string -> plan -> M W unit.
Variable lower : string -> string.
Variable rule : suffix_rule.
Variable os : os_view.

(** A call that does not touch the world. *)
Definition pure_call {A} (r : result A) : M W A := fun w => (r, w).

(** [generate_organization_plan(data_path, approach, output_file)]; an
    [output_file] that is [None] is [None] here. *)
Definition generate_organization_plan (data_path approach : string)
  (output_file : option string) : M W plan :=
  let! analysis :=
    pure_call (analyze_existing_data lower rule os data_path) in
  let! structure := pure_call (suggest_structure approach) in
  let plan := Plan now data_path approach analysis structure the_steps in
  match output_file with
  | Some f => if negb (String.eqb f "") then dump f plan else ret tt
  | None => ret tt
  end ;;;
  ret plan.

End WithEnvironment.

(** A world that only remembers what was dumped, and where. *)
Definition record_dump (f : string) (p : plan)
  : M (list (string * plan)) unit :=
  fun w => (Ok tt, w ++ [(f, p)]).

End Planner.

(** ** The choice of the approach in [main] *)
Module Cli.

(** The list [approaches] of [main]. *)
Definition approaches : list string :=
  ["by_type"; "by_project"; "by_date"; "hybrid_approach"].

(** [l[i]]: a negative index counts from the end; [None] stands for
    [IndexError]. *)
Definition list_index {A} (l : list A) (i : Z) : option A :=
  let n := Z.of_nat (length l) in
  if 0 <=? i then
    if i <? n then nth_error l (Z.to_nat i) else None
  else
    if - n <=? i then nth_error l (Z.to_nat (n + i)) else None.

(** The [try] statement of [main] that sets [approach], from the stripped
    answer [choice] on.  [int_of] stands for [int]: [None] is its
    [ValueError]. *)
Definition select_approach (int_of : string -> option Z) (choice : string)
  : string :=
  if negb (String.eqb choice "") then
    match int_of choice with
    | Some n =>
        match list_index approaches (n - 1) with
        | Some approach => approach
        | None => "hybrid_approach"
        end
    | None => "hybrid_approach"
    end
  else "hybrid_approach".

End Cli.

(** ** Definitions in which the properties of the materialization are
    stated *)

(** What a call of [mkdir] guarantees: nothing that existed is changed, no
    key longer than the path is touched, and after a return the path is a
    directory. *)
Definition mkdir_post (k : list string) (fs : fsmap) (r : result unit)
  (fs' : fsmap) : Prop :=
  fs ⊆ fs'
  /\ (forall k', (length k < length k')%nat -> fs' !! k' = fs !! k')
  /\ (r = Ok tt -> FS.stat fs' k = Ok Dir).

(** A disk on which [/srv/data/My_Docs] exists and holds a [README.md]. *)
Definition sample_disk : fsmap :=
  {[ ["srv"] := Dir;
     ["data"; "srv"] := Dir;
     ["My_Docs"; "data"; "srv"] := Dir;
     ["README.md"; "My_Docs"; "data"; "srv"] := File "keep me" ]}.

(** A template with one folder and one folder below it. *)
Definition sample_template : template :=
  D [("My_Docs", Sub (D [("Old_Stuff", Items [])]))].

(** [n] calls of [m] in a row: the results, and the last state. *)
Fixpoint call_times {S A} (n : nat) (m : M S A) (s : S)
  : list (result A) * S :=
  match n with
  | O => ([], s)
  | Datatypes.S n' =>
      let '(r, s1) := m s in
      let '(rs, s2) := call_times n' m s1 in
      (r :: rs, s2)
  end.

(** The view [os] with every walk yielding its entries in the opposite
    order. *)
Definition reversed_walk (os : Analyzer.os_view) : Analyzer.os_view :=
  Analyzer.OsView (Analyzer.path_exists os)
    (fun p => (rev (fst (Analyzer.rglob os p)), snd (Analyzer.rglob os p)))
    (Analyzer.is_file os) (Analyzer.st_size os).

(** [list(t.keys())]: the folder names of the top level. *)
Fixpoint template_keys (t : template) : list string :=
  match t with
  | TEmpty => []
  | TEntry folder_name _ rest => folder_name :: template_keys rest
  end.

(** The lines [print_structure] prints for a template, first to last. *)
Fixpoint printed (indent : Z) (t : template) : list string :=
  match t with
  | TEmpty => []
  | TEntry folder_name v rest =>
      Printer.folder_line indent folder_name
        :: match v with
           | Sub t' => printed (indent + 1) t'
           | Items l => List.map (Printer.item_line indent) l
           end
        ++ printed indent rest
  end.

(** The stream takes the lines [lines], one after the other, when the
    lines [out] are written. *)
Fixpoint taken (refuses : list string -> string -> option exn)
  (out lines : list string) : bool :=
  match lines with
  | [] => true
  | line :: rest =>
      match refuses out line with
      | None => taken refuses (out ++ [line]) rest
      | Some _ => false
      end
  end.


(** The same with [README.md] as the first name below the first folder. *)
Definition readme_first_template : template :=
  D [("a", Sub (D [("README.md", Items []); ("ok", Items [])]))].

(** A component as [Path] keeps them: not empty, not ["."], without
    ['/']. *)
Definition wf_component (c : string) : Prop :=
  c <> "" /\ c <> "." /\ PyStr.contains "/" c = false.

(** A path as [Path] builds them. *)
Definition wf_path (p : Pathlib.Path) : Prop :=
  (Pathlib.root p = "" \/ Pathlib.root p = "/" \/ Pathlib.root p = "//")
  /\ Forall wf_component (Pathlib.parts p).

(** * Properties *)

(** ** Strings and suffixes *)
Section SuffixFacts.
Import Pathlib.

Lemma rindex_absent c s : PyStr.contains c s = false -> PyStr.rindex c s = None.
Proof.
  induction s as [|a s IH]; simpl; [done|].
  intros H. apply orb_false_iff in H as [Ha Hs].
  by rewrite (IH Hs), Ha.
Qed.

Lemma rindex_last c pre ext :
  PyStr.contains c ext = false ->
  PyStr.rindex c (pre +:+ String c ext) = Some (String.length pre).
Proof.
  intros H. induction pre as [|a pre IH]; simpl.
  - by rewrite (rindex_absent _ _ H), Ascii.eqb_refl.
  - by rewrite IH.
Qed.

Lemma drop_length_app pre t : PyStr.drop (String.length pre) (pre +:+ t) = t.
Proof. induction pre as [|a pre IH]; simpl; [by destruct t|done]. Qed.

Lemma string_length_app s t :
  String.length (s +:+ t) = (String.length s + String.length t)%nat.
Proof. induction s as [|a s IH]; simpl; [done|by rewrite IH]. Qed.

Lemma lstrip_app c s t :
  PyStr.lstrip c s <> "" -> PyStr.lstrip c (s +:+ t) = PyStr.lstrip c s +:+ t.
Proof.
  induction s as [|a s IH]; simpl; [done|].
  destruct (Ascii.eqb a c); [apply IH|done].
Qed.

Lemma lstrip_absent c s : PyStr.contains c s = false -> PyStr.lstrip c s = s.
Proof.
  destruct s as [|a s]; simpl; [done|].
  intros H. apply orb_false_iff in H as [-> _]. done.
Qed.

Lemma slice_from_nat n s : PyStr.slice_from (Z.of_nat n) s = PyStr.drop n s.
Proof.
  unfold PyStr.slice_from.
  destruct (Z.ltb_spec (Z.of_nat n) 0); [lia|]. by rewrite Nat2Z.id.
Qed.

(** A name without ['.'] has no suffix. *)
Lemma suffix_no_dot rule nm :
  PyStr.contains "." nm = false -> name_suffix rule nm = "".
Proof.
  intros H. destruct rule; unfold name_suffix, PyStr.rfind.
  - by rewrite (rindex_absent _ _ H).
  - rewrite (lstrip_absent _ _ H), (rindex_absent _ _ H). done.
Qed.

(** A name whose only ['.'] is its first character has no suffix. *)
Lemma suffix_leading_dot rule rest :
  PyStr.contains "." rest = false -> name_suffix rule ("." +:+ rest) = "".
Proof.
  intros H. destruct rule; unfold name_suffix, PyStr.rfind.
  - change ("." +:+ rest) with ("" +:+ String "." rest).
    rewrite (rindex_last _ "" _ H). done.
  - change (PyStr.lstrip "." ("." +:+ rest)) with (PyStr.lstrip "." rest).
    rewrite (lstrip_absent _ _ H), (rindex_absent _ _ H). done.
Qed.

(** Otherwise the suffix runs from the last ['.'] to the end, provided that
    something follows this ['.'] and that what precedes it is not made of
    dots only. *)
Lemma suffix_last_dot rule stem ext :
  PyStr.lstrip "." stem <> "" -> ext <> "" ->
  PyStr.contains "." ext = false ->
  name_suffix rule (stem +:+ "." +:+ ext) = "." +:+ ext.
Proof.
  intros Hstem Hext H.
  change (stem +:+ "." +:+ ext) with (stem +:+ String "." ext).
  change ("." +:+ ext) with (String "." ext).
  destruct rule; unfold name_suffix, PyStr.rfind.
  - rewrite (rindex_last _ stem _ H). unfold PyStr.len.
    rewrite string_length_app. simpl String.length.
    assert (0 < String.length stem)%nat by (destruct stem; [done|simpl; lia]).
    assert (0 < String.length ext)%nat by (destruct ext; [done|simpl; lia]).
    destruct (Z.ltb_spec 0 (Z.of_nat (String.length stem))); [|lia].
    destruct (Z.ltb_spec (Z.of_nat (String.length stem))
      (Z.of_nat (String.length stem + S (String.length ext)) - 1)); [|lia].
    simpl. rewrite slice_from_nat. apply drop_length_app.
  - rewrite (lstrip_app _ _ _ Hstem).
    rewrite (rindex_last _ _ _ H).
    destruct (Z.eqb_spec (Z.of_nat (String.length (PyStr.lstrip "." stem))) (-1));
      [lia|].
    rewrite slice_from_nat. apply drop_length_app.
Qed.

End SuffixFacts.
(** ** The analysis *)
Section AnalysisFacts.
Import Pathlib Analyzer Spec.

Variable lower : string -> string.
Variable rule : suffix_rule.
Variable os : os_view.

Lemma visit_run p fa b :
  is_file os p = Ok b ->
  visit lower rule os p fa = (Ok tt, visit_fun lower rule os p fa).
Proof.
  intros Hb.
  unfold visit, visit_fun, is_regular, large_entry, extension.
  unfold bind at 1, call at 1. rewrite Hb.
  destruct b; [|reflexivity].
  unfold bind, try_except, check_large, call, incr_total_files,
    count_file_type, append_large_file, ret; cbn.
  destruct (st_size os p) as [size|e]; cbn.
  - destruct (megabytes size) as [size_mb|e]; cbn.
    + destruct (exceeds_100 size_mb); cbn; [reflexivity|].
      rewrite app_nil_r. reflexivity.
    + rewrite app_nil_r. reflexivity.
  - rewrite app_nil_r. reflexivity.
Qed.

(** An exception of [is_file()] leaves the loop body. *)
Lemma visit_raise p fa e :
  is_file os p = Raise e -> visit lower rule os p fa = (Raise e, fa).
Proof.
  intros He. unfold visit. unfold bind at 1, call at 1. by rewrite He.
Qed.

Lemma for_each_visit l fa :
  answered os l = true ->
  for_each l (visit lower rule os) fa = (Ok tt, scan lower rule os l fa).
Proof.
  revert fa. induction l as [|p l IH]; intros fa; simpl; [reflexivity|].
  intros [Hp Hl]%andb_true_iff.
  destruct (is_file os p) as [b|e] eqn:E; [|done].
  unfold bind. rewrite (visit_run p fa b E). by apply IH.
Qed.

(** The loop returns only if [is_file()] raised on no entry; otherwise it
    raises the first exception of [is_file()]. *)
Lemma for_each_visit_raise l fa :
  answered os l = false ->
  exists e fa', for_each l (visit lower rule os) fa = (Raise e, fa')
                /\ exists q, q ∈ l /\ is_file os q = Raise e.
Proof.
  revert fa. induction l as [|p l IH]; intros fa; simpl; [done|].
  destruct (is_file os p) as [b|e] eqn:E.
  - simpl. intros Hl. unfold bind. rewrite (visit_run p fa b E).
    destruct (IH (visit_fun lower rule os p fa) Hl)
      as (e & fa' & Hrun & q & Hq & He).
    exists e, fa'. split; [done|]. exists q. split; [|done].
    by apply list_elem_of_further.
  - intros _. unfold bind. rewrite (visit_raise p fa e E).
    exists e, fa. split; [done|]. exists p. split; [|done].
    apply list_elem_of_here.
Qed.

Lemma scan_cons p l fa :
  scan lower rule os (p :: l) fa = scan lower rule os l (visit_fun lower rule os p fa).
Proof. reflexivity. Qed.

Lemma scan_total l fa :
  total_files (scan lower rule os l fa)
  = total_files fa + Z.of_nat (length (List.filter (is_regular os) l)).
Proof.
  revert fa. induction l as [|p l IH]; intros fa.
  - simpl. lia.
  - rewrite scan_cons, IH. unfold visit_fun. simpl.
    destruct (is_regular os p); simpl; lia.
Qed.

Lemma scan_large l fa :
  large_files (scan lower rule os l fa)
  = large_files fa ++ omap (large_entry os) (List.filter (is_regular os) l).
Proof.
  revert fa. induction l as [|p l IH]; intros fa.
  - simpl. by rewrite app_nil_r.
  - rewrite scan_cons, IH. unfold visit_fun. simpl.
    destruct (is_regular os p); simpl; [|done].
    rewrite <- app_assoc. f_equal.
    destruct (large_entry os p); done.
Qed.

Lemma scan_recommendations l fa :
  recommendations (scan lower rule os l fa) = recommendations fa.
Proof.
  revert fa. induction l as [|p l IH]; intros fa; [done|].
  rewrite scan_cons, IH. unfold visit_fun.
  destruct (is_regular os p); done.
Qed.

Lemma count_ext_cons k p l :
  count_ext lower rule k (p :: l)
  = (if String.eqb (extension lower rule p) k then 1 else 0) + count_ext lower rule k l.
Proof.
  unfold count_ext. simpl.
  destruct (String.eqb (extension lower rule p) k); simpl; lia.
Qed.

Lemma count_ext_nonneg k l : 0 <= count_ext lower rule k l.
Proof. unfold count_ext. lia. Qed.

Lemma scan_count l fa k :
  default 0 (file_types (scan lower rule os l fa) !! k)
  = default 0 (file_types fa !! k)
    + count_ext lower rule k (List.filter (is_regular os) l).
Proof.
  revert fa. induction l as [|p l IH]; intros fa.
  - unfold count_ext. simpl. lia.
  - rewrite scan_cons, IH. unfold visit_fun. simpl.
    destruct (is_regular os p); simpl; [|done].
    rewrite count_ext_cons.
    destruct (String.eqb_spec (extension lower rule p) k) as [->|Hne].
    + rewrite lookup_insert_eq. simpl. lia.
    + rewrite lookup_insert_ne by done. lia.
Qed.

Lemma scan_lookup_is_Some l fa k :
  is_Some (file_types (scan lower rule os l fa) !! k)
  <-> is_Some (file_types fa !! k)
      \/ 0 < count_ext lower rule k (List.filter (is_regular os) l).
Proof.
  revert fa. induction l as [|p l IH]; intros fa.
  - unfold count_ext. simpl. split; [auto|]. intros [H|H]; [done|lia].
  - rewrite scan_cons, IH. unfold visit_fun. simpl.
    destruct (is_regular os p); simpl; [|done].
    rewrite count_ext_cons.
    pose proof (count_ext_nonneg k (List.filter (is_regular os) l)).
    destruct (String.eqb_spec (extension lower rule p) k) as [->|Hne].
    + rewrite lookup_insert_eq. split; [intros _; right; lia|].
      intros _. left. eauto.
    + rewrite lookup_insert_ne by done. simpl. done.
Qed.

Lemma map_total_bump (m : gmap string Z) k :
  map_total (<[k := default 0 (m !! k) + 1]> m) = map_total m + 1.
Proof.
  unfold map_total.
  destruct (m !! k) as [x|] eqn:E; simpl.
  - rewrite <- insert_delete_eq.
    rewrite map_fold_insert_L;
      [|intros; lia|by rewrite lookup_delete_eq].
    rewrite (map_fold_delete_L _ _ k x m); [lia|intros; lia|done].
  - rewrite map_fold_insert_L; [lia|intros; lia|done].
Qed.

Lemma scan_map_total l fa :
  map_total (file_types (scan lower rule os l fa))
  = map_total (file_types fa)
    + Z.of_nat (length (List.filter (is_regular os) l)).
Proof.
  revert fa. induction l as [|p l IH]; intros fa.
  - simpl. lia.
  - rewrite scan_cons, IH. unfold visit_fun. simpl.
    destruct (is_regular os p); simpl; [|done].
    rewrite map_total_bump. lia.
Qed.

Lemma sum_counts_acc (ft : gmap string Z) exts a :
  fold_left (fun acc ext => acc + default 0 (ft !! ext)) exts a
  = a + sum_counts ft exts.
Proof.
  unfold sum_counts. revert a.
  induction exts as [|e exts IH]; intros a; simpl; [lia|].
  rewrite IH, (IH (0 + _)). lia.
Qed.

Lemma sum_counts_cons (ft : gmap string Z) e exts :
  sum_counts ft (e :: exts) = default 0 (ft !! e) + sum_counts ft exts.
Proof. unfold sum_counts at 1. simpl. by rewrite sum_counts_acc. Qed.

Lemma count_in_nil_exts l : count_in lower rule [] l = 0.
Proof.
  unfold count_in. induction l as [|p l IH]; simpl; [done|]. apply IH.
Qed.

Lemma existsb_eqb_elem x (exts : list string) :
  existsb (String.eqb x) exts = true <-> x ∈ exts.
Proof.
  rewrite existsb_exists. split.
  - intros (y & Hin & Heq). apply String.eqb_eq in Heq. subst.
    by apply list_elem_of_In.
  - intros Hin. exists x. split; [by apply list_elem_of_In|].
    apply String.eqb_refl.
Qed.

Lemma count_in_cons_exts e exts l :
  e ∉ exts ->
  count_in lower rule (e :: exts) l = count_ext lower rule e l + count_in lower rule exts l.
Proof.
  intros Hne. unfold count_in, count_ext.
  induction l as [|p l IH]; simpl; [done|].
  destruct (String.eqb_spec (extension lower rule p) e) as [Heq|Hneq]; simpl.
  - destruct (existsb (String.eqb (extension lower rule p)) exts) eqn:Ex.
    + apply existsb_eqb_elem in Ex. congruence.
    + simpl in *. lia.
  - destruct (existsb (String.eqb (extension lower rule p)) exts); simpl in *; lia.
Qed.

(** Over the dictionary of counts the loop builds from the empty one, the
    sum over a list of distinct extensions is the number of files with one
    of these extensions. *)
Lemma sum_counts_scan l fa exts :
  NoDup exts ->
  sum_counts (file_types (scan lower rule os l fa)) exts
  = sum_counts (file_types fa) exts
    + count_in lower rule exts (List.filter (is_regular os) l).
Proof.
  induction 1 as [|e exts Hne Hnd IH].
  - rewrite count_in_nil_exts. unfold sum_counts. simpl. lia.
  - rewrite !sum_counts_cons, IH, scan_count, count_in_cons_exts by done.
    lia.
Qed.

Lemma analyze_missing data_path :
  path_exists os (parse data_path) = Ok false ->
  analyze_existing_data lower rule os data_path
  = Ok (ErrorDict ("Path " +:+ str (parse data_path) +:+ " does not exist")).
Proof. intros H. unfold analyze_existing_data. by rewrite H. Qed.

(** An exception of [exists()] leaves the function. *)
Lemma analyze_exists_raises data_path e :
  path_exists os (parse data_path) = Raise e ->
  analyze_existing_data lower rule os data_path = Raise e.
Proof. intros H. unfold analyze_existing_data. by rewrite H. Qed.

Lemma calm_answered data_path :
  calm os data_path = true
  <-> snd (rglob os data_path) = None
      /\ answered os (fst (rglob os data_path)) = true.
Proof.
  unfold calm. rewrite andb_true_iff.
  destruct (snd (rglob os data_path)); split; intros [? ?]; done.
Qed.

Lemma analyze_present data_path :
  path_exists os (parse data_path) = Ok true ->
  calm os (parse data_path) = true ->
  analyze_existing_data lower rule os data_path
  = Ok (Report (report lower rule os (parse data_path))).
Proof.
  intros H [Hend Hans]%calm_answered.
  unfold analyze_existing_data, analyze_files. rewrite H. simpl.
  unfold bind. rewrite for_each_visit by done. rewrite Hend. reflexivity.
Qed.

(** When the walk is not calm the analysis raises: the first exception of
    [is_file()], or else the one [rglob] ends with. *)
Lemma analyze_not_calm data_path :
  path_exists os (parse data_path) = Ok true ->
  calm os (parse data_path) = false ->
  exists e, analyze_existing_data lower rule os data_path = Raise e
            /\ ((exists q, q ∈ fst (rglob os (parse data_path))
                           /\ is_file os q = Raise e)
                \/ snd (rglob os (parse data_path)) = Some e).
Proof.
  intros H Hc.
  unfold analyze_existing_data, analyze_files. rewrite H. simpl.
  unfold bind at 1.
  destruct (answered os (fst (rglob os (parse data_path)))) eqn:Hans.
  - rewrite for_each_visit by done.
    destruct (snd (rglob os (parse data_path))) as [e|] eqn:Hend.
    + exists e. split; [done|]. by right.
    + assert (calm os (parse data_path) = true) by (by apply calm_answered).
      congruence.
  - destruct (for_each_visit_raise _ (FileAnalysis 0 ∅ [] []) Hans)
      as (e & fa' & -> & Hq).
    exists e. split; [done|]. by left.
Qed.

(** A returned report tells that the root exists and the walk was calm. *)
Lemma analyze_report_inv data_path fa :
  analyze_existing_data lower rule os data_path = Ok (Report fa) ->
  path_exists os (parse data_path) = Ok true
  /\ calm os (parse data_path) = true
  /\ fa = report lower rule os (parse data_path).
Proof.
  intros Hfa.
  destruct (path_exists os (parse data_path)) as [[|]|e] eqn:E.
  - destruct (calm os (parse data_path)) eqn:Hc.
    + rewrite analyze_present in Hfa by done. by injection Hfa as <-.
    + destruct (analyze_not_calm _ E Hc) as (e & He & _). congruence.
  - by rewrite analyze_missing in Hfa.
  - by rewrite (analyze_exists_raises _ e) in Hfa.
Qed.

Lemma generate_recommendations_rules fa :
  generate_recommendations fa
  = rule1 (sum_counts (file_types fa) Catalog.documents)
          (sum_counts (file_types fa) media_extensions)
    ++ rule2 (large_files fa) ++ rule3 (total_files fa).
Proof.
  unfold generate_recommendations, rule1, rule2, rule3, media_extensions.
  generalize (sum_counts (file_types fa) Catalog.documents).
  generalize (sum_counts (file_types fa)
                (Catalog.images ++ Catalog.videos ++ Catalog.audio)).
  intros m d.
  destruct (d >? m); [|destruct (m >? d)];
    destruct (large_files fa); simpl; destruct (total_files fa >? 1000);
    reflexivity.
Qed.

Lemma report_total data_path :
  total_files (report lower rule os data_path)
  = Z.of_nat (length (files os data_path)).
Proof. unfold report, files. simpl. rewrite scan_total. simpl. lia. Qed.

Lemma report_large data_path :
  large_files (report lower rule os data_path)
  = omap (large_entry os) (files os data_path).
Proof. unfold report, files. simpl. by rewrite scan_large. Qed.

Lemma report_map_total data_path :
  map_total (file_types (report lower rule os data_path))
  = Z.of_nat (length (files os data_path)).
Proof.
  unfold report, files. simpl. rewrite scan_map_total. simpl.
  unfold map_total at 1. by rewrite map_fold_empty.
Qed.

Lemma report_count data_path k :
  default 0 (file_types (report lower rule os data_path) !! k)
  = count_ext lower rule k (files os data_path).
Proof.
  unfold report, files. simpl. rewrite scan_count. simpl.
  by rewrite lookup_empty.
Qed.

Lemma report_lookup_None data_path k :
  file_types (report lower rule os data_path) !! k = None
  <-> count_ext lower rule k (files os data_path) = 0.
Proof.
  pose proof (scan_lookup_is_Some (fst (rglob os data_path))
                (FileAnalysis 0 ∅ [] []) k) as H.
  pose proof (count_ext_nonneg k (files os data_path)) as Hn.
  unfold report, files in *. simpl in *. rewrite lookup_empty in H.
  rewrite eq_None_not_Some, H. split.
  - intros Hno. destruct (Z.eq_dec (count_ext lower rule k
      (List.filter (is_regular os) (fst (rglob os data_path)))) 0); [done|].
    exfalso. apply Hno. right. lia.
  - intros -> [[? ?]|?]; [done|lia].
Qed.

Lemma report_sum_counts data_path exts :
  NoDup exts ->
  sum_counts (file_types (report lower rule os data_path)) exts
  = count_in lower rule exts (files os data_path).
Proof.
  intros Hnd. unfold report, files. simpl.
  rewrite sum_counts_scan by done. simpl.
  assert (sum_counts ∅ exts = 0) as ->; [|lia].
  clear Hnd. induction exts as [|e exts IH]; [done|].
  rewrite sum_counts_cons, IH, lookup_empty. done.
Qed.

Lemma report_recommendations data_path :
  recommendations (report lower rule os data_path)
  = rule1 (sum_counts (file_types (report lower rule os data_path)) Catalog.documents)
          (sum_counts (file_types (report lower rule os data_path)) media_extensions)
    ++ rule2 (large_files (report lower rule os data_path))
    ++ rule3 (total_files (report lower rule os data_path)).
Proof.
  unfold report at 1. simpl. rewrite generate_recommendations_rules.
  reflexivity.
Qed.

End AnalysisFacts.

(** ** Sizes *)
Section SizeFacts.
Import Analyzer.






End SizeFacts.

(** ** The claims about the analysis *)
Section AnalysisClaims.
Import Pathlib Analyzer Spec.

(** The specification counts 14 extensions in the categories 'images',
    'videos' and 'audio'; the table of the program has 7 + 6 + 5 = 18. *)
Lemma C1_media_extensions_are_18_not_14 :
  length Catalog.images = 7%nat /\ length Catalog.videos = 6%nat
  /\ length Catalog.audio = 5%nat
  /\ length media_extensions = 18%nat /\ length media_extensions <> 14%nat.
Proof. repeat split; try reflexivity. discriminate. Qed.

(** C1 (amended): for an existing root whose walk runs to its end the
    recommendations of the report are those of three rules in order, each
    giving zero or one string: the first compares the count of files with
    one of the 6 'documents' extensions and the count of files with one of
    the 18 'images', 'videos' and 'audio' extensions (project-based if the
    first is larger, type-based if the second is larger, hybrid otherwise,
    also when both are 0); the second is the large-files rule; the third
    adds the date-based recommendation if there are more than 1000
    files. *)
Theorem C1_recommendations_by_three_rules (lower : string -> string) rule
  (os : os_view) (data_path : string) :
  path_exists os (parse data_path) = Ok true ->
  calm os (parse data_path) = true ->
  exists fa doc_count media_count,
    analyze_existing_data lower rule os data_path = Ok (Report fa)
    /\ doc_count = sum_counts (file_types fa) Catalog.documents
    /\ media_count = sum_counts (file_types fa) media_extensions
    /\ length Catalog.documents = 6%nat
    /\ length media_extensions = 18%nat
    /\ doc_count
       = count_in lower rule Catalog.documents (files os (parse data_path))
    /\ media_count
       = count_in lower rule media_extensions (files os (parse data_path))
    /\ recommendations fa
       = rule1 doc_count media_count ++ rule2 (large_files fa)
         ++ rule3 (total_files fa)
    /\ rule1 doc_count media_count
       = (if doc_count >? media_count then [rec_by_project]
          else if media_count >? doc_count then [rec_by_type]
          else [rec_hybrid])
    /\ rule1 0 0 = [rec_hybrid]
    /\ rule2 (large_files fa)
       = (if decide (large_files fa = []) then [] else [rec_large_files])
    /\ rule3 (total_files fa)
       = (if decide (total_files fa > 1000) then [rec_by_date] else []).
Proof.
  intros Hex Hcalm. eexists _, _, _.
  split; [by apply analyze_present|].
  split; [reflexivity|]. split; [reflexivity|].
  split; [reflexivity|]. split; [reflexivity|].
  split; [apply report_sum_counts; compute_done|].
  split; [apply report_sum_counts; compute_done|].
  split; [apply report_recommendations|].
  split; [reflexivity|]. split; [reflexivity|].
  split.
  - unfold rule2. destruct (large_files _); [done|]. by case_decide.
  - unfold rule3. destruct (Z.gtb_spec (total_files (report lower rule os
      (parse data_path))) 1000); case_decide; try done; lia.
Qed.

Lemma C1_witness :
  exists fa doc_count media_count,
    analyze_existing_data PyStr.ascii_lower ByRfind
      (listing_view [("a.pdf", Ok 10); ("b.PDF", Ok 20); ("c.jpg", Ok 30)])
      "/data" = Ok (Report fa)
    /\ doc_count = 2 /\ media_count = 1
    /\ recommendations fa
       = rule1 doc_count media_count ++ rule2 (large_files fa)
         ++ rule3 (total_files fa)
    /\ rule1 doc_count media_count = [rec_by_project].
Proof.
  destruct (C1_recommendations_by_three_rules PyStr.ascii_lower ByRfind
    (listing_view [("a.pdf", Ok 10); ("b.PDF", Ok 20); ("c.jpg", Ok 30)])
    "/data" eq_refl eq_refl)
    as (fa & d & m & Hfa & _ & _ & _ & _ & Hd & Hm & Hrec & _).
  exists fa, d, m. split; [exact Hfa|]. split; [exact Hd|].
  split; [exact Hm|]. split; [exact Hrec|].
  rewrite Hd, Hm. reflexivity.
Defined.

(** On an empty disk a root whose name is too long does not exist, and
    up to Python 3.13 the test [exists()] raises for it: the exception
    leaves the function, and no dictionary is returned. *)
Lemma C5_missing_root_can_raise :
  path_exists empty_disk_view (parse ("/" +:+ long_name)) = Raise (OSError 36)
  /\ analyze_existing_data PyStr.ascii_lower ByRfind empty_disk_view
       ("/" +:+ long_name)
     = Raise (OSError 36).
Proof. split; vm_compute; reflexivity. Qed.

(** C5 (amended): for a root for which [exists()] answers [False] the
    analysis raises nothing and returns the dictionary whose only key is
    ['error']; the file count, the extension counts, the large files and
    the recommendations are absent from it. *)
Theorem C5_missing_root_gives_error_dict (lower : string -> string) rule
  (os : os_view) (data_path : string) :
  path_exists os (parse data_path) = Ok false ->
  exists a,
    analyze_existing_data lower rule os data_path = Ok a
    /\ keys a = ["error"]
    /\ get_error a
       = Some ("Path " +:+ str (parse data_path) +:+ " does not exist")
    /\ get_total_files a = None /\ get_file_types a = None
    /\ get_large_files a = None /\ get_recommendations a = None.
Proof.
  intros H. eexists. split; [by apply analyze_missing|]. by repeat split.
Qed.

Lemma C5_witness :
  exists a,
    analyze_existing_data PyStr.ascii_lower ByRfind empty_view "/no/such/dir"
    = Ok a
    /\ keys a = ["error"]
    /\ get_error a = Some "Path /no/such/dir does not exist"
    /\ get_total_files a = None /\ get_file_types a = None
    /\ get_large_files a = None /\ get_recommendations a = None.
Proof.
  exact (C5_missing_root_gives_error_dict PyStr.ascii_lower ByRfind
           empty_view "/no/such/dir" eq_refl).
Defined.



(** The specification takes the extension of a name to start at its last
    ['.'].  The name [".bashrc"] is counted under the empty string, whichever
    rule [pathlib] uses. *)
Lemma C8_dotfile_is_counted_without_extension :
  spec_extension PyStr.ascii_lower ".bashrc" = ".bashrc"
  /\ (exists fa,
        analyze_existing_data PyStr.ascii_lower ByRfind
          (one_file_view ".bashrc" (Ok 0)) "/data"
        = Ok (Report fa)
        /\ file_types fa !! spec_extension PyStr.ascii_lower ".bashrc" = None
        /\ file_types fa !! "" = Some 1)
  /\ (exists fa,
        analyze_existing_data PyStr.ascii_lower ByLstrip
          (one_file_view ".bashrc" (Ok 0)) "/data"
        = Ok (Report fa)
        /\ file_types fa !! spec_extension PyStr.ascii_lower ".bashrc" = None
        /\ file_types fa !! "" = Some 1).
Proof.
  split; [reflexivity|].
  split; eexists; (split; [vm_compute; reflexivity|]);
    split; vm_compute; reflexivity.
Qed.

(** C8 (amended): every regular file of the walk is counted under the key
    [lower (suffix)], the suffix that [pathlib] gives its name, lowered by
    [str.lower], and under no other key.  This suffix is the substring of
    the name from its last ['.'] onward when something follows this ['.']
    and a character other than ['.'] precedes it; it is the empty string
    when the name contains no ['.'] and when its only ['.'] is its first
    character, and such files are counted under the empty string. *)
Theorem C8_files_counted_under_lowercased_suffix (lower : string -> string)
  rule (os : os_view) (data_path : string) :
  PyStr.lowers_ascii lower ->
  path_exists os (parse data_path) = Ok true ->
  calm os (parse data_path) = true ->
  exists fa,
    analyze_existing_data lower rule os data_path = Ok (Report fa)
    /\ (forall k, default 0 (file_types fa !! k)
                  = count_ext lower rule k (files os (parse data_path)))
    /\ (forall k, file_types fa !! k = None
                  <-> count_ext lower rule k (files os (parse data_path)) = 0)
    /\ (forall p, extension lower rule p = lower (name_suffix rule (name p)))
    /\ (forall nm, PyStr.contains "." nm = false -> name_suffix rule nm = "")
    /\ (forall rest, PyStr.contains "." rest = false ->
                     name_suffix rule ("." +:+ rest) = "")
    /\ (forall stem ext,
          PyStr.lstrip "." stem <> "" -> ext <> "" ->
          PyStr.contains "." ext = false ->
          name_suffix rule (stem +:+ "." +:+ ext) = "." +:+ ext)
    /\ (forall p, name_suffix rule (name p) = "" -> extension lower rule p = "").
Proof.
  intros Hlow Hex Hcalm. eexists. split; [by apply analyze_present|].
  split; [apply report_count|]. split; [apply report_lookup_None|].
  split; [reflexivity|].
  split; [apply suffix_no_dot|]. split; [apply suffix_leading_dot|].
  split; [apply suffix_last_dot|].
  intros p Hp. unfold extension, suffix. rewrite Hp. by apply Hlow.
Qed.

Lemma C8_witness :
  exists fa,
    analyze_existing_data PyStr.ascii_lower ByLstrip
      (listing_view [("Report.PDF", Ok 1); ("notes", Ok 2);
                     ("archive.tar.GZ", Ok 3); (".bashrc", Ok 4)])
      "/data" = Ok (Report fa)
    /\ default 0 (file_types fa !! ".pdf") = 1
    /\ default 0 (file_types fa !! ".gz") = 1
    /\ default 0 (file_types fa !! "") = 2
    /\ file_types fa !! ".tar.gz" = None.
Proof.
  destruct (C8_files_counted_under_lowercased_suffix PyStr.ascii_lower
    ByLstrip
    (listing_view [("Report.PDF", Ok 1); ("notes", Ok 2);
                   ("archive.tar.GZ", Ok 3); (".bashrc", Ok 4)])
    "/data" (fun s _ => eq_refl) eq_refl eq_refl)
    as (fa & Hfa & Hcount & Hnone & _).
  exists fa. split; [exact Hfa|].
  split; [rewrite Hcount; reflexivity|].
  split; [rewrite Hcount; reflexivity|].
  split; [rewrite Hcount; reflexivity|].
  apply Hnone. reflexivity.
Defined.

(** A file in a directory that may be listed but not searched: its size
    cannot be read for lack of permission, and up to Python 3.13 the call
    of [is_file()], which is outside the [try], raises for the same reason:
    the analysis stops with [PermissionError]. *)
Lemma C9_unreadable_file_can_stop_the_analysis :
  st_size (unsearchable_dir_view "secret.bin")
    (joinpath (parse "/data") "secret.bin") = Raise PermissionError
  /\ fst (rglob (unsearchable_dir_view "secret.bin") (parse "/data"))
     = [joinpath (parse "/data") "secret.bin"]
  /\ analyze_existing_data PyStr.ascii_lower ByRfind
       (unsearchable_dir_view "secret.bin") "/data"
     = Raise PermissionError.
Proof. repeat split. Qed.

(** C9 (amended): a size read that fails for a file that [is_file()] has
    reported as regular never leaves the loop: when the root exists and the
    walk runs to its end, the analysis returns a report whatever the size
    reads raise, the report is the one obtained if each failing read had
    answered a size of 0 bytes, so that nothing in it tells the failure,
    the file is still counted, and the files after it are still walked.
    An exception that the analysis raises is never one of a size read: it
    comes from [exists()], from [is_file()] or from [rglob]. *)
Theorem C9_size_read_failure_is_swallowed (lower : string -> string) rule
  (os : os_view) (data_path : string) :
  (path_exists os (parse data_path) = Ok true ->
   calm os (parse data_path) = true ->
   exists fa,
     analyze_existing_data lower rule os data_path = Ok (Report fa)
     /\ analyze_existing_data lower rule (stat_failures_as 0 os) data_path
        = Ok (Report fa)
     /\ total_files fa = Z.of_nat (length (files os (parse data_path)))
     /\ large_files fa = omap (large_entry os) (files os (parse data_path))
     /\ (forall p e, st_size os p = Raise e -> large_entry os p = None))
  /\ (forall e,
        analyze_existing_data lower rule os data_path = Raise e ->
        path_exists os (parse data_path) = Raise e
        \/ (exists q, q ∈ fst (rglob os (parse data_path))
                      /\ is_file os q = Raise e)
        \/ snd (rglob os (parse data_path)) = Some e).
Proof.
  split.
  - intros Hex Hcalm. eexists. split; [by apply analyze_present|].
    split.
    { rewrite (analyze_present lower rule (stat_failures_as 0 os)) by done.
      do 2 f_equal. unfold report. simpl rglob.
      assert (forall l fa, scan lower rule (stat_failures_as 0 os) l fa
                           = scan lower rule os l fa) as ->; [|done].
      induction l as [|p l IH]; intros fa; [done|].
      rewrite !scan_cons, IH. f_equal.
      unfold visit_fun, is_regular, large_entry. simpl.
      destruct (is_file os p) as [[|]|]; try done.
      destruct (st_size os p); done. }
    split; [apply report_total|]. split; [apply report_large|].
    intros p e Hsz. unfold large_entry. by rewrite Hsz.
  - intros e He.
    destruct (path_exists os (parse data_path)) as [[|]|e'] eqn:E.
    + destruct (calm os (parse data_path)) eqn:Hc.
      * by rewrite analyze_present in He.
      * destruct (analyze_not_calm lower rule os _ E Hc) as (e1 & He1 & Hor).
        rewrite He1 in He. injection He as <-. by right.
    + by rewrite analyze_missing in He.
    + rewrite (analyze_exists_raises _ _ _ _ e') in He by done. left. congruence.
Qed.

Lemma C9_witness :
  exists fa,
    analyze_existing_data PyStr.ascii_lower ByRfind
      (listing_view [("a.txt", Raise PermissionError);
                     ("b.bin", Raise FileNotFoundError);
                     ("c.bin", Ok 157286400)])
      "/data" = Ok (Report fa)
    /\ total_files fa = 3
    /\ large_files fa = [LargeFile "/data/c.bin" (Qmake 15000 100)].
Proof.
  destruct (C9_size_read_failure_is_swallowed PyStr.ascii_lower ByRfind
    (listing_view [("a.txt", Raise PermissionError);
                   ("b.bin", Raise FileNotFoundError);
                   ("c.bin", Ok 157286400)])
    "/data") as [H _].
  destruct (H eq_refl eq_refl) as (fa & Hfa & _ & Htot & Hlarge & _).
  exists fa. split; [exact Hfa|]. split; [exact Htot|].
  rewrite Hlarge. vm_compute. reflexivity.
Defined.

(** C10: in the report of an existing root whose walk runs to its end the
    counts of all extensions add up to the total file count, which is the
    number of regular files of the walk, whether or not their sizes could
    be read. *)
Theorem C10_extension_counts_add_up_to_total (lower : string -> string) rule
  (os : os_view) (data_path : string) :
  path_exists os (parse data_path) = Ok true ->
  calm os (parse data_path) = true ->
  exists fa,
    analyze_existing_data lower rule os data_path = Ok (Report fa)
    /\ map_total (file_types fa) = total_files fa
    /\ total_files fa = Z.of_nat (length (files os (parse data_path))).
Proof.
  intros Hex Hcalm. eexists. split; [by apply analyze_present|].
  rewrite report_map_total, report_total. done.
Qed.

Lemma C10_witness :
  exists fa,
    analyze_existing_data PyStr.ascii_lower ByRfind
      (listing_view [("a.txt", Raise PermissionError); ("b.txt", Ok 5);
                     ("c", Ok 7)])
      "/data" = Ok (Report fa)
    /\ map_total (file_types fa) = total_files fa
    /\ total_files fa = 3.
Proof.
  exact (C10_extension_counts_add_up_to_total PyStr.ascii_lower ByRfind
    (listing_view [("a.txt", Raise PermissionError); ("b.txt", Ok 5);
                   ("c", Ok 7)])
    "/data" eq_refl eq_refl).
Defined.

End AnalysisClaims.
Section FSFacts.

(** What was there stays there when entries are only added. *)
Lemma stat_mono (fs fs' : fsmap) (k : list string) n :
  fs ⊆ fs' -> FS.stat fs k = Ok n -> FS.stat fs' k = Ok n.
Proof.
  intros Hsub. revert n. induction k as [|a parent IH]; intros n; simpl; [done|].
  destruct (FS.stat fs parent) as [[|c]|e]; try done.
  rewrite (IH Dir eq_refl).
  destruct (fs !! (a :: parent)) as [m|] eqn:E; [|done].
  by rewrite (lookup_weaken _ _ _ _ E Hsub).
Qed.

Lemma stat_cons (fs : fsmap) (a : string) (parent : list string) :
  FS.stat fs (a :: parent)
  = match FS.stat fs parent with
    | Ok Dir =>
        match fs !! (a :: parent) with
        | Some n => Ok n
        | None => Raise FileNotFoundError
        end
    | Ok (File _) => Raise NotADirectoryError
    | Raise e => Raise e
    end.
Proof. reflexivity. Qed.

Lemma stat_parent (fs : fsmap) a parent n :
  FS.stat fs (a :: parent) = Ok n ->
  FS.stat fs parent = Ok Dir /\ fs !! (a :: parent) = Some n.
Proof.
  simpl. destruct (FS.stat fs parent) as [[|c]|e]; try done.
  destruct (fs !! (a :: parent)); [|done]. by intros [= ->].
Qed.

(** [os.mkdir] adds one directory below an existing one, or changes
    nothing. *)
Lemma os_mkdir_spec (k : list string) (fs : fsmap) r fs' :
  FS.os_mkdir k fs = (r, fs') ->
  (r = Ok tt /\ fs !! k = None /\ fs' = <[k := Dir]> fs
   /\ FS.stat fs' k = Ok Dir /\ k <> [])
  \/ (exists e, r = Raise e /\ fs' = fs
               /\ (e = FileNotFoundError -> exists a parent, k = a :: parent)
               /\ (FS.stat fs k = Ok Dir -> e = FileExistsError)).
Proof.
  unfold FS.os_mkdir. destruct k as [|a parent].
  { intros [= <- <-]. right. exists FileExistsError. by repeat split. }
  destruct (FS.stat fs parent) as [[|c]|e] eqn:Hp.
  - destruct (fs !! (a :: parent)) as [m|] eqn:E; intros [= <- <-].
    + right. exists FileExistsError.
      split; [done|]. split; [done|]. split; [eauto|done].
    + left. split; [done|]. split; [done|]. split; [done|]. split; [|done].
      simpl. rewrite (stat_mono fs _ parent Dir); [|by apply insert_subseteq|done].
      by rewrite lookup_insert_eq.
  - intros [= <- <-]. right. exists NotADirectoryError.
    split; [done|]. split; [done|]. split; [eauto|].
    simpl. by rewrite Hp.
  - intros [= <- <-]. right. exists e.
    split; [done|]. split; [done|]. split; [eauto|].
    simpl. by rewrite Hp.
Qed.

Lemma mkdir_post_trans (k1 k : list string) fs r1 fs1 r fs' :
  (length k1 <= length k)%nat ->
  mkdir_post k1 fs r1 fs1 -> mkdir_post k fs1 r fs' -> mkdir_post k fs r fs'.
Proof.
  intros Hlen (S1 & L1 & _) (S2 & L2 & O2). split; [by etrans|]. split; [|done].
  intros k' Hk'. rewrite L2 by done. apply L1. lia.
Qed.

Lemma handler_post (k : list string) (fs : fsmap) e :
  mkdir_post k fs
    (fst ((if is_OSError e
           then let! d := FS.is_dir k in if d then ret tt else raise e
           else raise e) fs))
    (snd ((if is_OSError e
           then let! d := FS.is_dir k in if d then ret tt else raise e
           else raise e) fs)).
Proof.
  unfold bind, FS.is_dir, ret, raise.
  destruct (is_OSError e); simpl; [|by repeat split].
  destruct (FS.stat fs k) as [[|c]|e'] eqn:Hs; simpl; by repeat split.
Qed.

Lemma mkdir_exist_ok_post (k : list string) (fs : fsmap) :
  mkdir_post k fs (fst (FS.mkdir_exist_ok k fs)) (snd (FS.mkdir_exist_ok k fs)).
Proof.
  unfold FS.mkdir_exist_ok, try_except.
  destruct (FS.os_mkdir k fs) as [[[]|e] fs1] eqn:E;
    apply os_mkdir_spec in E as [(? & Hn & -> & Hs & _)|(e' & ? & -> & _)];
    try done; simplify_eq.
  - simpl. split; [by apply insert_subseteq|]. split; [|done].
    intros k' Hk'. apply lookup_insert_ne. intros ->. lia.
  - destruct e'; try apply handler_post; by repeat split.
Qed.

Lemma mkdir_unfold (anchor rparts : list string) (fs : fsmap) :
  FS.mkdir anchor rparts fs
  = try_except (FS.os_mkdir (rparts ++ anchor)) (fun e =>
      match e with
      | FileNotFoundError =>
          match rparts with
          | [] => raise e
          | _ :: rparent =>
              FS.mkdir anchor rparent ;;;
              FS.mkdir_exist_ok (rparts ++ anchor)
          end
      | _ =>
          if is_OSError e then
            let! d := FS.is_dir (rparts ++ anchor) in
            if d then ret tt else raise e
          else raise e
      end) fs.
Proof. destruct rparts; reflexivity. Qed.

Lemma mkdir_post_holds (anchor rparts : list string) (fs : fsmap) :
  mkdir_post (rparts ++ anchor) fs
    (fst (FS.mkdir anchor rparts fs)) (snd (FS.mkdir anchor rparts fs)).
Proof.
  revert fs. induction rparts as [|a rparent IH]; intros fs;
    rewrite mkdir_unfold; unfold try_except;
    destruct (FS.os_mkdir _ fs) as [[[]|e] fs1] eqn:E;
    apply os_mkdir_spec in E as [(? & Hn & -> & Hs & _)|(e' & ? & -> & _)];
    try done; simplify_eq.
  - split; [by apply insert_subseteq|]. split; [|done].
    intros k' Hk'. apply lookup_insert_ne. intros <-. simpl in *. lia.
  - destruct e'; try apply handler_post; by repeat split.
  - split; [by apply insert_subseteq|]. split; [|done].
    intros k' Hk'. apply lookup_insert_ne. intros <-. simpl in *. lia.
  - destruct e'; try apply (handler_post ((a :: rparent) ++ anchor));
      try by repeat split.
    unfold bind. specialize (IH fs).
    destruct (FS.mkdir anchor rparent fs) as [[[]|e] fs1] eqn:E1; simpl in IH.
    + pose proof (mkdir_exist_ok_post ((a :: rparent) ++ anchor) fs1) as H2.
      eapply mkdir_post_trans; [|exact IH|exact H2]. simpl. lia.
    + simpl. destruct IH as (S1 & L1 & _). split; [done|]. split; [|done].
      intros k' Hk'. apply L1. simpl in Hk'. lia.
Qed.

(** On a path that is a directory already, [mkdir] changes nothing. *)
Lemma mkdir_existing (anchor rparts : list string) (fs : fsmap) :
  FS.stat fs (rparts ++ anchor) = Ok Dir ->
  FS.mkdir anchor rparts fs = (Ok tt, fs).
Proof.
  intros Hs. rewrite mkdir_unfold. unfold try_except.
  destruct (FS.os_mkdir _ fs) as [[[]|e] fs1] eqn:E;
    apply os_mkdir_spec in E as [(? & Hn & -> & _ & Hk)|(e' & ? & -> & _ & He)];
    try done; simplify_eq.
  - destruct (rparts ++ anchor) as [|a parent]; [done|].
    apply stat_parent in Hs as [_ Hs]. congruence.
  - rewrite (He Hs). simpl. unfold bind, FS.is_dir. by rewrite Hs.
Qed.

(** Writing a file that does not exist yet. *)
Lemma write_text_new (k : list string) (text : string) (fs : fsmap) a parent :
  k = a :: parent -> FS.stat fs parent = Ok Dir -> fs !! k = None ->
  FS.write_text k text fs = (Ok tt, <[k := File text]> fs).
Proof. intros -> Hp Hk. unfold FS.write_text. by rewrite Hp, Hk. Qed.

End FSFacts.
Section MaterializerFacts.
Import Pathlib Materializer.

Variable lower : string -> string.
Variable cwd : list string.

Lemma for_each_app {S A} (l1 l2 : list A) (body : A -> M S unit) (s : S) :
  for_each (l1 ++ l2) body s
  = match for_each l1 body s with
    | (Ok _, s1) => for_each l2 body s1
    | (Raise e, s1) => (Raise e, s1)
    end.
Proof.
  revert s. induction l1 as [|x l1 IH]; intros s; simpl; [done|].
  unfold bind. destruct (body x s) as [[[]|e] s1]; [apply IH|done].
Qed.

Lemma key_readme (p : Path) :
  key cwd (joinpath p "README.md") = "README.md" :: key cwd p.
Proof.
  change (joinpath p "README.md")
    with (MkPath (root p) (parts p ++ ["README.md"])).
  unfold key, anchor. simpl. by rewrite rev_unit.
Qed.

(** What the file-system work for one folder guarantees. *)
Lemma make_folder_post (p : Path) (n : string) (fs : fsmap) r fs' :
  make_folder lower cwd p n fs = (r, fs') ->
  fs ⊆ fs'
  /\ (r = Ok tt ->
      in_place cwd fs' p
      /\ (fs !! ("README.md" :: key cwd p) = None ->
          fs' !! ("README.md" :: key cwd p) = Some (File (readme_text lower n)))).
Proof.
  unfold make_folder, bind, path_mkdir, path_exists, open_write, FS.exists_.
  pose proof (mkdir_post_holds (anchor cwd p) (rev (parts p)) fs) as Hm.
  destruct (FS.mkdir (anchor cwd p) (rev (parts p)) fs) as [[[]|e] fs1];
    simpl in Hm; destruct Hm as (S1 & L1 & O1).
  - specialize (O1 eq_refl). fold (key cwd p) in O1.
    rewrite key_readme, stat_cons, O1.
    destruct (fs1 !! ("README.md" :: key cwd p)) as [x|] eqn:E; simpl.
    + intros [= <- <-]. split; [done|]. intros _. split.
      * split; [done|]. exists x. by rewrite stat_cons, O1, E.
      * intros Hno. rewrite L1 in E; [congruence|]. simpl. unfold key. lia.
    + rewrite O1, E.
      intros [= <- <-].
      assert (fs1 ⊆ <["README.md" :: key cwd p := File (readme_text lower n)]> fs1)
        as S2 by by apply insert_subseteq.
      split; [by etrans|]. intros _. split.
      * split; [by apply (stat_mono fs1)|].
        exists (File (readme_text lower n)).
        rewrite stat_cons, (stat_mono fs1 _ _ _ S2 O1).
        by rewrite lookup_insert_eq.
      * intros _. by rewrite lookup_insert_eq.
  - intros [= <- <-]. done.
Qed.

(** For a folder in place the work is void. *)
Lemma make_folder_again (p : Path) (n : string) (fs : fsmap) :
  in_place cwd fs p -> make_folder lower cwd p n fs = (Ok tt, fs).
Proof.
  intros [Hd [x Hx]].
  unfold make_folder, bind, path_mkdir, path_exists, FS.exists_.
  rewrite mkdir_existing by done. rewrite key_readme, Hx. done.
Qed.

Lemma in_place_mono (fs fs' : fsmap) (p : Path) :
  fs ⊆ fs' -> in_place cwd fs p -> in_place cwd fs' p.
Proof.
  intros Hsub [Hd [x Hx]]. split; [by apply (stat_mono fs)|].
  exists x. by apply (stat_mono fs).
Qed.

Lemma make_folders_post (l : list (Path * string)) (fs : fsmap) r fs' :
  make_folders lower cwd l fs = (r, fs') ->
  fs ⊆ fs'
  /\ (r = Ok tt -> forall pn, pn ∈ l -> in_place cwd fs' (fst pn)).
Proof.
  revert fs. induction l as [|[p n] l IH]; intros fs; unfold make_folders; simpl.
  - intros [= <- <-]. split; [done|]. intros _ pn Hin. by apply elem_of_nil in Hin.
  - unfold bind. simpl.
    destruct (make_folder lower cwd p n fs) as [[[]|e] fs1] eqn:E;
      apply make_folder_post in E as [S1 O1].
    + intros Hrest. apply IH in Hrest as [S2 O2]. split; [by etrans|].
      intros -> pn Hin. apply elem_of_cons in Hin as [->|Hin].
      * apply (in_place_mono fs1); [done|]. by apply O1.
      * by apply O2.
    + intros [= <- <-]. done.
Qed.

Lemma make_folders_again (l : list (Path * string)) (fs : fsmap) :
  (forall pn, pn ∈ l -> in_place cwd fs (fst pn)) ->
  make_folders lower cwd l fs = (Ok tt, fs).
Proof.
  induction l as [|[p n] l IH]; intros Hall; unfold make_folders; simpl; [done|].
  unfold bind. simpl. rewrite make_folder_again.
  - apply IH. intros pn Hin. apply Hall. by apply list_elem_of_further.
  - apply (Hall (p, n)). apply list_elem_of_here.
Qed.

Lemma preorder_entry (cur : Path) n v rest :
  preorder cur (TEntry n v rest)
  = str (joinpath cur n)
      :: match v with
         | Sub t' => preorder (joinpath cur n) t'
         | Items _ => []
         end
      ++ preorder cur rest.
Proof. unfold preorder. simpl. rewrite map_app. by destruct v. Qed.

Lemma create_recursive_entry dry_run (cur : Path) n v rest (s : mstate) :
  create_recursive lower cwd dry_run cur (TEntry n v rest) s
  = match (if negb dry_run then make_folder lower cwd (joinpath cur n) n else ret tt)
            (disk s) with
    | (Ok _, d) =>
        match match v with
              | Sub t' => create_recursive lower cwd dry_run (joinpath cur n) t'
              | Items _ => ret tt
              end (MState (created_folders s ++ [str (joinpath cur n)]) d) with
        | (Ok _, s2) => create_recursive lower cwd dry_run cur rest s2
        | (Raise e, s2) => (Raise e, s2)
        end
    | (Raise e, d) =>
        (Raise e, MState (created_folders s ++ [str (joinpath cur n)]) d)
    end.
Proof.
  simpl. unfold bind, append_created, on_disk. simpl.
  destruct dry_run; simpl.
  - unfold ret. by destruct s.
  - by destruct (make_folder lower cwd (joinpath cur n) n (disk s)) as [[[]|e] d].
Qed.

(** A dry run appends the pre-order sequence and leaves the disk alone. *)
Lemma create_recursive_dry (t : template) :
  forall (cur : Path) (s : mstate),
    create_recursive lower cwd true cur t s
    = (Ok tt, MState (created_folders s ++ preorder cur t) (disk s)).
Proof.
  induction t as [|n v IHv rest IHrest| |t' IH]
    using template_ind'
    with (P0 := fun v => match v with
                         | Sub t' => forall cur s,
                             create_recursive lower cwd true cur t' s
                             = (Ok tt, MState (created_folders s ++ preorder cur t')
                                         (disk s))
                         | Items _ => True
                         end); try done.
  - intros cur s. simpl. unfold ret, preorder. simpl.
    rewrite app_nil_r. by destruct s.
  - intros cur s. rewrite create_recursive_entry, preorder_entry.
    simpl. unfold ret at 1.
    destruct v as [items|t'].
    + unfold ret. rewrite IHrest. simpl. by rewrite <- app_assoc.
    + rewrite IHv, IHrest. simpl. by rewrite <- !app_assoc.
Qed.

(** A run that is not a dry run does the work of [make_folders] on the
    disk, and after a return it has appended the pre-order sequence. *)
Lemma create_recursive_wet (t : template) :
  forall (cur : Path) (s : mstate),
    (fst (create_recursive lower cwd false cur t s),
     disk (snd (create_recursive lower cwd false cur t s)))
    = make_folders lower cwd (nodes cur t) (disk s)
    /\ (fst (create_recursive lower cwd false cur t s) = Ok tt ->
        created_folders (snd (create_recursive lower cwd false cur t s))
        = created_folders s ++ preorder cur t).
Proof.
  induction t as [|n v IHv rest IHrest| |t' IH]
    using template_ind'
    with (P0 := fun v => match v with
                         | Sub t' => forall cur s,
                             (fst (create_recursive lower cwd false cur t' s),
                              disk (snd (create_recursive lower cwd false cur t' s)))
                             = make_folders lower cwd (nodes cur t') (disk s)
                             /\ (fst (create_recursive lower cwd false cur t' s) = Ok tt ->
                                 created_folders
                                   (snd (create_recursive lower cwd false cur t' s))
                                 = created_folders s ++ preorder cur t')
                         | Items _ => True
                         end); try done.
  - intros cur s. simpl. unfold preorder. simpl. by rewrite app_nil_r.
  - intros cur s. rewrite create_recursive_entry, preorder_entry.
    unfold make_folders. simpl nodes. simpl for_each. unfold bind. simpl.
    destruct (make_folder lower cwd (joinpath cur n) n (disk s)) as [[[]|e] d];
      [|done].
    rewrite for_each_app.
    destruct v as [items|t'].
    + simpl.
      destruct (IHrest cur (MState (created_folders s ++ [str (joinpath cur n)]) d))
        as [Hd Hc].
      split; [exact Hd|]. intros Hok. rewrite (Hc Hok). simpl.
      by rewrite <- app_assoc.
    + destruct (IHv (joinpath cur n)
                  (MState (created_folders s ++ [str (joinpath cur n)]) d))
        as [Hd Hc].
      unfold make_folders in Hd. simpl in Hd. rewrite <- Hd.
      destruct (create_recursive lower cwd false (joinpath cur n) t' _)
        as [[[]|e] s2]; simpl in *; [|done].
      destruct (IHrest cur s2) as [Hd2 Hc2].
      split; [exact Hd2|]. intros Hok. rewrite (Hc2 Hok), (Hc eq_refl).
      by rewrite <- !app_assoc.
Qed.

Lemma create_folder_structure_dry (base_path : string)
  (structure : template) (fs : fsmap) :
  create_folder_structure lower cwd base_path structure true fs
  = (Ok (preorder (parse base_path) structure), fs).
Proof.
  unfold create_folder_structure. by rewrite create_recursive_dry.
Qed.

Lemma create_folder_structure_wet (base_path : string)
  (structure : template) (fs : fsmap) :
  create_folder_structure lower cwd base_path structure false fs
  = match make_folders lower cwd (nodes (parse base_path) structure) fs with
    | (Ok _, fs') => (Ok (preorder (parse base_path) structure), fs')
    | (Raise e, fs') => (Raise e, fs')
    end.
Proof.
  unfold create_folder_structure.
  destruct (create_recursive_wet structure (parse base_path) (MState [] fs))
    as [Hd Hc]. simpl in Hd. rewrite <- Hd.
  destruct (create_recursive lower cwd false (parse base_path) structure _)
    as [[[]|e] s2]; simpl in *; [|done].
  by rewrite (Hc eq_refl).
Qed.

Lemma length_preorder (cur : Path) (t : template) :
  length (preorder cur t) = node_count t.
Proof.
  revert cur.
  induction t as [|n v IHv rest IHrest| |t' IH]
    using template_ind'
    with (P0 := fun v => match v with
                         | Sub t' => forall cur,
                             length (preorder cur t') = node_count t'
                         | Items _ => True
                         end); try done.
  intros cur. rewrite preorder_entry. simpl. rewrite length_app, IHrest.
  destruct v; simpl; [done|]. by rewrite IHv.
Qed.

Lemma ascii_lower_replace_commute (n : string) :
  PyStr.replace "_" " " (PyStr.ascii_lower n)
  = PyStr.ascii_lower (PyStr.replace "_" " " n).
Proof.
  induction n as [|c n IH]; simpl; [done|]. rewrite IH. f_equal.
  by destruct c as [[] [] [] [] [] [] [] []].
Qed.

End MaterializerFacts.
(** ** C4: the catalog *)

(** C4: each of the four catalog names selects its template, none of them
    empty, and any other string makes [suggest_structure] raise
    [ValueError]. *)
Theorem C4_suggest_structure_catalog :
  suggest_structure "by_type" = Ok Catalog.by_type
  /\ suggest_structure "by_project" = Ok Catalog.by_project
  /\ suggest_structure "by_date" = Ok Catalog.by_date
  /\ suggest_structure "hybrid_approach" = Ok Catalog.hybrid_approach
  /\ List.map (fun nt => template_len (snd nt)) Catalog.base_structures
     = [5; 4; 2; 5]%nat
  /\ (forall approach t, suggest_structure approach = Ok t ->
        approach ∈ ["by_type"; "by_project"; "by_date"; "hybrid_approach"]
        /\ t <> TEmpty)
  /\ (forall approach,
        approach ∉ ["by_type"; "by_project"; "by_date"; "hybrid_approach"] ->
        suggest_structure approach
        = Raise (ValueError ("Unknown approach: " +:+ approach))).
Proof.
  do 5 (split; [reflexivity|]).
  assert (forall approach,
    (approach ∈ ["by_type"; "by_project"; "by_date"; "hybrid_approach"]
     /\ (exists t, suggest_structure approach = Ok t /\ t <> TEmpty))
    \/ ((approach ∉ ["by_type"; "by_project"; "by_date"; "hybrid_approach"])
        /\ suggest_structure approach
           = Raise (ValueError ("Unknown approach: " +:+ approach)))) as H.
  { intros approach. unfold suggest_structure. simpl.
    destruct (String.eqb_spec approach "by_type") as [->|H1];
      [left; split; [set_solver|by eexists]|].
    destruct (String.eqb_spec approach "by_project") as [->|H2];
      [left; split; [set_solver|by eexists]|].
    destruct (String.eqb_spec approach "by_date") as [->|H3];
      [left; split; [set_solver|by eexists]|].
    destruct (String.eqb_spec approach "hybrid_approach") as [->|H4];
      [left; split; [set_solver|by eexists]|].
    right. split; [|done]. intros Hin.
    repeat (apply elem_of_cons in Hin as [Heq|Hin]; [done|]).
    by apply elem_of_nil in Hin. }
  split.
  - intros approach t Ht. destruct (H approach) as [(Hin & t' & Ht' & Hne)|(_ & Hr)].
    + split; [done|]. congruence.
    + congruence.
  - intros approach Hnot. destruct (H approach) as [(Hin & _)|(_ & Hr)]; done.
Qed.

Lemma C4_witness :
  suggest_structure "by_size" = Raise (ValueError "Unknown approach: by_size")
  /\ suggest_structure "By_Type" = Raise (ValueError "Unknown approach: By_Type")
  /\ suggest_structure "" = Raise (ValueError "Unknown approach: ").
Proof.
  destruct C4_suggest_structure_catalog as (_ & _ & _ & _ & _ & _ & H).
  repeat split; apply H; intros Hin;
    repeat (apply elem_of_cons in Hin as [Heq|Hin]; [discriminate Heq|]);
    by apply elem_of_nil in Hin.
Defined.

(** ** The claims about the materialization *)
Section MaterializerClaims.
Import Pathlib Materializer.

(** C2: whatever the base path, the template and the flag, the sequence
    that [create_folder_structure] returns is the pre-order sequence of the
    paths of the folder nodes: a dry run always returns it, a run that
    creates folders returns it whenever it returns; its length is the number
    of keys of the template at all levels. *)
Theorem C2_result_is_the_preorder_sequence (lower : string -> string)
  (cwd : list string)
  (base_path : string) (structure : template) :
  (forall fs : fsmap,
     create_folder_structure lower cwd base_path structure true fs
     = (Ok (preorder (parse base_path) structure), fs))
  /\ (forall (fs : fsmap) (l : list string) (fs' : fsmap),
        create_folder_structure lower cwd base_path structure false fs = (Ok l, fs') ->
        l = preorder (parse base_path) structure)
  /\ length (preorder (parse base_path) structure) = node_count structure
  /\ (forall cur, preorder cur TEmpty = [])
  /\ (forall cur n v rest,
        preorder cur (TEntry n v rest)
        = str (joinpath cur n)
            :: match v with
               | Sub t' => preorder (joinpath cur n) t'
               | Items _ => []
               end
            ++ preorder cur rest).
Proof.
  split; [apply create_folder_structure_dry|].
  split.
  { intros fs l fs'. rewrite create_folder_structure_wet.
    destruct (make_folders _ _ _) as [[[]|e] d]; [|done]. by intros [= <- _]. }
  split; [apply length_preorder|].
  split; [done|]. apply preorder_entry.
Qed.

Lemma C2_witness :
  create_folder_structure PyStr.ascii_lower [] "/tmp/test_structure" Catalog.by_date true ∅
  = (Ok ["/tmp/test_structure/2024";
         "/tmp/test_structure/2024/Q1_Jan_Mar";
         "/tmp/test_structure/2024/Q1_Jan_Mar/January";
         "/tmp/test_structure/2024/Q1_Jan_Mar/February";
         "/tmp/test_structure/2024/Q1_Jan_Mar/March";
         "/tmp/test_structure/2024/Q2_Apr_Jun";
         "/tmp/test_structure/2024/Q2_Apr_Jun/April";
         "/tmp/test_structure/2024/Q2_Apr_Jun/May";
         "/tmp/test_structure/2024/Q2_Apr_Jun/June";
         "/tmp/test_structure/2024/Q3_Jul_Sep";
         "/tmp/test_structure/2024/Q3_Jul_Sep/July";
         "/tmp/test_structure/2024/Q3_Jul_Sep/August";
         "/tmp/test_structure/2024/Q3_Jul_Sep/September";
         "/tmp/test_structure/2024/Q4_Oct_Dec";
         "/tmp/test_structure/2024/Q4_Oct_Dec/October";
         "/tmp/test_structure/2024/Q4_Oct_Dec/November";
         "/tmp/test_structure/2024/Q4_Oct_Dec/December";
         "/tmp/test_structure/2023";
         "/tmp/test_structure/2023/Archive"], ∅)
  /\ fst (create_folder_structure PyStr.ascii_lower [] "/tmp/test_structure" Catalog.by_date
            false ∅)
     = Ok (preorder (parse "/tmp/test_structure") Catalog.by_date)
  /\ node_count Catalog.by_date = 19%nat.
Proof.
  destruct (C2_result_is_the_preorder_sequence PyStr.ascii_lower [] "/tmp/test_structure"
              Catalog.by_date) as (Hdry & Hwet & Hlen & _).
  split; [exact (Hdry ∅)|]. split; [|reflexivity].
  destruct (create_folder_structure PyStr.ascii_lower [] "/tmp/test_structure" Catalog.by_date
              false ∅) as [r fs'] eqn:E.
  assert (exists l, r = Ok l) as [l ->].
  { apply (f_equal fst) in E. simpl in E. rewrite <- E.
    vm_compute. eauto. }
  simpl. f_equal. exact (Hwet ∅ l fs' E).
Defined.

(** C3: a dry run leaves the file system as it is, and it returns the
    pre-order sequence, which does not depend on the file system; so do any
    number of dry runs in a row. *)
Theorem C3_dry_run_changes_nothing (lower : string -> string)
  (cwd : list string) (base_path : string)
  (structure : template) (fs : fsmap) :
  create_folder_structure lower cwd base_path structure true fs
  = (Ok (preorder (parse base_path) structure), fs)
  /\ forall n,
       call_times n (create_folder_structure lower cwd base_path structure true) fs
       = (repeat (Ok (preorder (parse base_path) structure)) n, fs).
Proof.
  split; [apply create_folder_structure_dry|].
  induction n as [|n IH]; simpl; [done|].
  by rewrite create_folder_structure_dry, IH.
Qed.

(** C7: a run that creates folders and returns has done, one folder node
    after the other in pre-order, the work of [make_folder]: the folder is a
    directory afterwards, and its [README.md], if there was none, holds the
    heading and the line made from the folder name, lowered by [str.lower]
    and then with spaces for underscores (for a name of ASCII characters
    the two steps may be swapped).  The statement about one folder is for
    paths without a [".."] component, on a disk without symbolic links.
    Nothing that existed before the run is changed, in particular no
    existing file; after the run every folder of the template is in place,
    and a second run on the result returns the same sequence and changes
    nothing. *)
Theorem C7_marker_files_written_once (lower : string -> string)
  (cwd : list string) (base_path : string)
  (structure : template) (fs : fsmap) (l : list string) (fs1 : fsmap) :
  create_folder_structure lower cwd base_path structure false fs = (Ok l, fs1) ->
  make_folders lower cwd (nodes (parse base_path) structure) fs = (Ok tt, fs1)
  /\ (forall (p : Path) (n : string) (d : fsmap) (r : result unit)
             (d' : fsmap),
        ".." ∉ parts p ->
        make_folder lower cwd p n d = (r, d') ->
        d ⊆ d'
        /\ (r = Ok tt ->
            in_place cwd d' p
            /\ (d !! ("README.md" :: key cwd p) = None ->
                d' !! ("README.md" :: key cwd p) = Some (File (readme_text lower n)))))
  /\ (forall n,
        readme_text lower n
        = "# " +:+ n +:+ nl +:+ nl +:+ "This folder is for organizing "
          +:+ PyStr.replace "_" " " (lower n) +:+ " files." +:+ nl)
  /\ (PyStr.lowers_ascii lower ->
      forall n, PyStr.is_ascii n = true ->
                PyStr.replace "_" " " (lower n)
                = PyStr.ascii_lower (PyStr.replace "_" " " n))
  /\ fs ⊆ fs1
  /\ (forall (k : list string) (text : string),
        fs !! k = Some (File text) -> fs1 !! k = Some (File text))
  /\ (forall pn, pn ∈ nodes (parse base_path) structure ->
                 in_place cwd fs1 (fst pn))
  /\ create_folder_structure lower cwd base_path structure false fs1 = (Ok l, fs1).
Proof.
  rewrite create_folder_structure_wet.
  destruct (make_folders lower cwd _ fs) as [[[]|e] d] eqn:E; [|done].
  intros [= <- <-]. pose proof (make_folders_post _ _ _ _ _ _ E) as [Hsub Hin].
  split; [done|].
  split; [intros p n d0 r d' _; apply make_folder_post|].
  split; [done|].
  split; [intros Hlow n Hn; rewrite (Hlow n Hn); apply ascii_lower_replace_commute|].
  split; [done|].
  split; [intros k text Hk; by apply (lookup_weaken fs)|].
  split; [by apply Hin|].
  rewrite create_folder_structure_wet, make_folders_again; [done|by apply Hin].
Qed.

Lemma C7_witness :
  exists (l : list string) (fs1 : fsmap),
    create_folder_structure PyStr.ascii_lower [] "/srv/data" sample_template false sample_disk
    = (Ok l, fs1)
    /\ l = ["/srv/data/My_Docs"; "/srv/data/My_Docs/Old_Stuff"]
    /\ fs1 !! ["README.md"; "My_Docs"; "data"; "srv"] = Some (File "keep me")
    /\ fs1 !! ["README.md"; "Old_Stuff"; "My_Docs"; "data"; "srv"]
       = Some (File ("# Old_Stuff" +:+ nl +:+ nl +:+
                     "This folder is for organizing old stuff files." +:+ nl))
    /\ create_folder_structure PyStr.ascii_lower [] "/srv/data" sample_template false fs1
       = (Ok l, fs1).
Proof.
  destruct (create_folder_structure PyStr.ascii_lower [] "/srv/data" sample_template false
              sample_disk) as [r fs1] eqn:E.
  assert (r = Ok ["/srv/data/My_Docs"; "/srv/data/My_Docs/Old_Stuff"]) as ->.
  { apply (f_equal fst) in E. simpl in E. rewrite <- E.
    vm_compute. reflexivity. }
  destruct (C7_marker_files_written_once PyStr.ascii_lower [] "/srv/data" sample_template
              sample_disk _ fs1 E)
    as (_ & _ & _ & _ & _ & Hfiles & _ & Hagain).
  exists ["/srv/data/My_Docs"; "/srv/data/My_Docs/Old_Stuff"], fs1.
  split; [reflexivity|]. split; [reflexivity|].
  split; [apply Hfiles; reflexivity|]. split; [|exact Hagain].
  apply (f_equal snd) in E. simpl in E. rewrite <- E.
  vm_compute. reflexivity.
Defined.

End MaterializerClaims.

(** * Further properties *)

(** ** The analysis and the order of the walk *)
Section WalkOrder.
Import Pathlib Analyzer Spec.

Variable lower : string -> string.

Lemma filter_perm {A} (f : A -> bool) (l l' : list A) :
  l ≡ₚ l' -> List.filter f l ≡ₚ List.filter f l'.
Proof.
  induction 1 as [|x l l' _ IH|x y l|l1 l2 l3 _ IH1 _ IH2]; simpl.
  - done.
  - destruct (f x); [by constructor|done].
  - destruct (f x), (f y); try done. apply perm_swap.
  - by etrans.
Qed.

Lemma count_ext_perm rule k (l l' : list Path) :
  l ≡ₚ l' -> count_ext lower rule k l = count_ext lower rule k l'.
Proof.
  intros H. unfold count_ext. f_equal.
  apply Permutation_length. by apply filter_perm.
Qed.

Lemma large_entry_ext (os os' : os_view) (p : Path) :
  st_size os' p = st_size os p -> large_entry os' p = large_entry os p.
Proof. intros H. unfold large_entry. by rewrite H. Qed.

Lemma rule2_perm (l l' : list large_file) : l ≡ₚ l' -> rule2 l' = rule2 l.
Proof.
  intros H. destruct l, l'; try done.
  - by apply Permutation_nil_cons in H.
  - symmetry in H. by apply Permutation_nil_cons in H.
Qed.

Lemma answered_perm (os : os_view) (l l' : list Path) :
  l ≡ₚ l' -> answered os l = answered os l'.
Proof.
  unfold answered.
  induction 1 as [|x l l' _ IH|x y l|l1 l2 l3 _ IH1 _ IH2]; simpl.
  - done.
  - by rewrite IH.
  - by rewrite !andb_assoc, (andb_comm (match is_file os y with
                                          | Ok _ => true | Raise _ => false end)).
  - by etrans.
Qed.

Lemma answered_ext (os os' : os_view) (l : list Path) :
  (forall q, is_file os' q = is_file os q) -> answered os' l = answered os l.
Proof.
  intros H. unfold answered. induction l as [|p l IH]; simpl; [done|].
  by rewrite H, IH.
Qed.

Lemma report_perm rule (os os' : os_view) (p : Path) :
  (forall q, is_file os' q = is_file os q) ->
  (forall q, st_size os' q = st_size os q) ->
  fst (rglob os' p) ≡ₚ fst (rglob os p) ->
  total_files (report lower rule os' p) = total_files (report lower rule os p)
  /\ file_types (report lower rule os' p) = file_types (report lower rule os p)
  /\ recommendations (report lower rule os' p) = recommendations (report lower rule os p)
  /\ large_files (report lower rule os' p) ≡ₚ large_files (report lower rule os p).
Proof.
  intros Hfile Hsize Hperm.
  assert (files os' p ≡ₚ files os p) as Hfiles.
  { unfold files.
    rewrite (List.filter_ext (is_regular os') (is_regular os))
      by (intros q; unfold is_regular; by rewrite Hfile).
    by apply filter_perm. }
  assert (large_files (report lower rule os' p) ≡ₚ large_files (report lower rule os p))
    as Hlarge.
  { rewrite !report_large.
    assert (forall l, omap (large_entry os') l = omap (large_entry os) l)
      as ->.
    { intros l. apply list_omap_ext, Forall2_same_length_lookup_2; [done|].
      intros i x y Hx Hy. simplify_eq. by apply large_entry_ext. }
    by rewrite Hfiles. }
  assert (total_files (report lower rule os' p) = total_files (report lower rule os p))
    as Htotal.
  { rewrite !report_total. f_equal. by apply Permutation_length. }
  assert (file_types (report lower rule os' p) = file_types (report lower rule os p))
    as Htypes.
  { apply map_eq. intros k.
    pose proof (report_count lower rule os p k) as H1.
    pose proof (report_count lower rule os' p k) as H2.
    pose proof (report_lookup_None lower rule os p k) as N1.
    pose proof (report_lookup_None lower rule os' p k) as N2.
    rewrite (count_ext_perm rule k _ _ Hfiles) in H2, N2.
    destruct (file_types (report lower rule os p) !! k) as [x|],
             (file_types (report lower rule os' p) !! k) as [y|]; simpl in *.
    - congruence.
    - destruct N1 as [_ N1]. by specialize (N1 (eq_sym H2)).
    - destruct N2 as [_ N2]. by specialize (N2 (eq_sym H1)).
    - done. }
  split; [done|]. split; [done|]. split; [|done].
  rewrite !report_recommendations, Htypes, Htotal.
  by rewrite (rule2_perm _ _ Hlarge).
Qed.

End WalkOrder.

(** ** The keys and the counts of the report *)
Section ReportShape.
Import Pathlib Analyzer Spec.

Lemma rindex_none_absent c s :
  PyStr.rindex c s = None -> PyStr.contains c s = false.
Proof.
  induction s as [|a s IH]; simpl; [done|].
  destruct (PyStr.rindex c s); [done|].
  destruct (Ascii.eqb a c); [done|]. intros _. by rewrite IH.
Qed.

Lemma rindex_drop c s i :
  PyStr.rindex c s = Some i ->
  exists rest, PyStr.drop i s = String c rest /\ PyStr.contains c rest = false.
Proof.
  revert i. induction s as [|a s IH]; intros i; simpl; [done|].
  destruct (PyStr.rindex c s) as [j|] eqn:E.
  - intros [= <-]. simpl. by apply IH.
  - destruct (Ascii.eqb_spec a c) as [->|]; [|done]. intros [= <-].
    exists s. split; [done|]. by apply rindex_none_absent.
Qed.

(** A suffix is empty, or a ['.'] followed by characters other than
    ['.']. *)
Lemma name_suffix_shape rule nm :
  name_suffix rule nm = ""
  \/ exists rest, name_suffix rule nm = String "." rest
                 /\ PyStr.contains "." rest = false.
Proof.
  destruct rule; unfold name_suffix, PyStr.rfind.
  - destruct (PyStr.rindex "." nm) as [i|] eqn:E; [|by left].
    destruct (_ && _); [|by left]. right.
    rewrite slice_from_nat. by apply rindex_drop.
  - destruct (PyStr.rindex "." (PyStr.lstrip "." nm)) as [i|] eqn:E;
      [|by left].
    destruct (Z.eqb_spec (Z.of_nat i) (-1)); [lia|]. right.
    rewrite slice_from_nat. by apply rindex_drop.
Qed.

Lemma count_ext_pos_elem (lower : string -> string)
  rule k (l : list Path) :
  0 < count_ext lower rule k l -> exists p, p ∈ l /\ extension lower rule p = k.
Proof.
  unfold count_ext.
  destruct (List.filter _ l) as [|p l'] eqn:E; simpl; [lia|]. intros _.
  assert (In p (List.filter (fun p => String.eqb (extension lower rule p) k) l))
    as Hin by (rewrite E; by left).
  apply filter_In in Hin as [Hin Heq]. exists p.
  split; [by apply list_elem_of_In|]. by apply String.eqb_eq.
Qed.

(** X1: every key of [file_types] is the suffix, lowered by [str.lower],
    of the name of a regular file of the walk, a suffix that is the empty
    string or a ['.'] followed by characters other than ['.']; its count is
    the number of these files, at least 1. *)
Theorem X1_extension_keys_are_lowercase_dotted_suffixes (lower : string -> string)
  rule (os : os_view)
  (data_path : string) (fa : file_analysis) (k : string) (n : Z) :
  analyze_existing_data lower rule os data_path = Ok (Report fa) ->
  file_types fa !! k = Some n ->
  (exists p, p ∈ files os (parse data_path)
             /\ k = lower (name_suffix rule (name p))
             /\ (name_suffix rule (name p) = ""
                 \/ exists rest, name_suffix rule (name p) = String "." rest
                                 /\ PyStr.contains "." rest = false))
  /\ n = count_ext lower rule k (files os (parse data_path))
  /\ 1 <= n.
Proof.
  intros Hfa Hk. apply analyze_report_inv in Hfa as (_ & _ & ->).
  pose proof (report_count lower rule os (parse data_path) k) as Hc.
  pose proof (report_lookup_None lower rule os (parse data_path) k) as Hn.
  pose proof (count_ext_nonneg lower rule k (files os (parse data_path))) as H0.
  rewrite Hk in Hc, Hn. simpl in Hc.
  assert (0 < count_ext lower rule k (files os (parse data_path))) as Hpos.
  { destruct (Z.eq_dec (count_ext lower rule k (files os (parse data_path))) 0)
      as [Hz|]; [|lia]. by apply Hn in Hz. }
  destruct (count_ext_pos_elem _ _ _ _ Hpos) as (p & Hp & Hext).
  split; [|split; [done|lia]].
  exists p. split; [done|]. split; [done|]. apply name_suffix_shape.
Qed.

Lemma X1_witness :
  (exists p,
     p ∈ files (listing_view [("Archive.Tar.GZ", Ok 1); ("b.gz", Ok 2)])
           (parse "/data")
     /\ ".gz" = PyStr.ascii_lower (name_suffix ByRfind (name p))
     /\ (name_suffix ByRfind (name p) = ""
         \/ exists rest, name_suffix ByRfind (name p) = String "." rest
                         /\ PyStr.contains "." rest = false))
  /\ 2 = count_ext PyStr.ascii_lower ByRfind ".gz"
           (files (listing_view [("Archive.Tar.GZ", Ok 1); ("b.gz", Ok 2)])
              (parse "/data"))
  /\ 1 <= 2.
Proof.
  exact (X1_extension_keys_are_lowercase_dotted_suffixes PyStr.ascii_lower
           ByRfind
           (listing_view [("Archive.Tar.GZ", Ok 1); ("b.gz", Ok 2)])
           "/data" _ ".gz" 2 eq_refl eq_refl).
Defined.

Lemma count_in_disjoint (lower : string -> string)
  rule (A B : list string) (l : list Path) :
  (forall x, existsb (String.eqb x) A && existsb (String.eqb x) B = false) ->
  count_in lower rule A l + count_in lower rule B l <= Z.of_nat (length l).
Proof.
  intros Hdis. unfold count_in. induction l as [|p l IH]; simpl; [lia|].
  specialize (Hdis (extension lower rule p)).
  destruct (existsb _ A), (existsb _ B); simpl in *; try done; lia.
Qed.

(** X2: no file counts both as a document and as media: in a report the
    count of the 'documents' extensions and the count of the 'images',
    'videos' and 'audio' extensions, neither negative, add up to at most
    the total file count. *)
Theorem X2_documents_and_media_never_overlap (lower : string -> string)
  rule (os : os_view)
  (data_path : string) (fa : file_analysis) :
  analyze_existing_data lower rule os data_path = Ok (Report fa) ->
  0 <= sum_counts (file_types fa) Catalog.documents
  /\ 0 <= sum_counts (file_types fa) media_extensions
  /\ sum_counts (file_types fa) Catalog.documents
     + sum_counts (file_types fa) media_extensions <= total_files fa.
Proof.
  intros Hfa. apply analyze_report_inv in Hfa as (_ & _ & ->).
  rewrite !report_sum_counts, report_total by compute_done.
  split; [unfold count_in; lia|]. split; [unfold count_in; lia|].
  apply count_in_disjoint. intros x.
  destruct (existsb (String.eqb x) Catalog.documents) eqn:E; [|done].
  apply existsb_eqb_elem in E.
  repeat (apply elem_of_cons in E as [->|E]; [reflexivity|]).
  by apply elem_of_nil in E.
Qed.

Lemma X2_witness :
  0 <= 1 /\ 0 <= 1 /\ 1 + 1 <= 3.
Proof.
  exact (X2_documents_and_media_never_overlap PyStr.ascii_lower ByRfind
           (listing_view [("a.pdf", Ok 1); ("b.mp3", Ok 2); ("c.py", Ok 3)])
           "/data" _ eq_refl).
Defined.

(** X3: the order in which [rglob] yields the entries does not matter:
    two walks of the same entries give the same file count, the same
    extension counts and the same recommendations, and the same large
    files up to their order. *)
Theorem X3_report_independent_of_walk_order (lower : string -> string)
  rule (os os' : os_view)
  (data_path : string) (fa : file_analysis) :
  (forall q, path_exists os' q = path_exists os q) ->
  (forall q, is_file os' q = is_file os q) ->
  (forall q, st_size os' q = st_size os q) ->
  fst (rglob os' (parse data_path)) ≡ₚ fst (rglob os (parse data_path)) ->
  snd (rglob os' (parse data_path)) = snd (rglob os (parse data_path)) ->
  analyze_existing_data lower rule os data_path = Ok (Report fa) ->
  exists fa',
    analyze_existing_data lower rule os' data_path = Ok (Report fa')
    /\ total_files fa' = total_files fa
    /\ file_types fa' = file_types fa
    /\ recommendations fa' = recommendations fa
    /\ large_files fa' ≡ₚ large_files fa.
Proof.
  intros Hex Hfile Hsize Hperm Hend Hfa.
  apply analyze_report_inv in Hfa as (Hp & Hcalm & ->).
  eexists. split.
  - apply analyze_present; [by rewrite Hex|].
    unfold calm in *. rewrite Hend.
    by rewrite (answered_perm _ _ _ Hperm), (answered_ext os os' _ Hfile).
  - by apply report_perm.
Qed.

Lemma X3_witness :
  exists fa',
    analyze_existing_data PyStr.ascii_lower ByLstrip
      (reversed_walk
         (listing_view [("a.pdf", Ok 1); ("b.iso", Ok 209715200);
                        ("c.iso", Ok 314572800)]))
      "/data" = Ok (Report fa')
    /\ total_files fa'
       = total_files
           (report PyStr.ascii_lower ByLstrip
              (listing_view [("a.pdf", Ok 1); ("b.iso", Ok 209715200);
                             ("c.iso", Ok 314572800)])
              (parse "/data"))
    /\ file_types fa'
       = file_types
           (report PyStr.ascii_lower ByLstrip
              (listing_view [("a.pdf", Ok 1); ("b.iso", Ok 209715200);
                             ("c.iso", Ok 314572800)])
              (parse "/data"))
    /\ recommendations fa'
       = recommendations
           (report PyStr.ascii_lower ByLstrip
              (listing_view [("a.pdf", Ok 1); ("b.iso", Ok 209715200);
                             ("c.iso", Ok 314572800)])
              (parse "/data"))
    /\ large_files fa'
       ≡ₚ large_files
            (report PyStr.ascii_lower ByLstrip
               (listing_view [("a.pdf", Ok 1); ("b.iso", Ok 209715200);
                              ("c.iso", Ok 314572800)])
               (parse "/data")).
Proof.
  exact (X3_report_independent_of_walk_order PyStr.ascii_lower ByLstrip
    (listing_view [("a.pdf", Ok 1); ("b.iso", Ok 209715200);
                   ("c.iso", Ok 314572800)])
    (reversed_walk
       (listing_view [("a.pdf", Ok 1); ("b.iso", Ok 209715200);
                      ("c.iso", Ok 314572800)]))
    "/data" _ (fun _ => eq_refl) (fun _ => eq_refl) (fun _ => eq_refl)
    (Permutation_sym (Permutation_rev _)) eq_refl
    (analyze_present PyStr.ascii_lower ByLstrip
       (listing_view [("a.pdf", Ok 1); ("b.iso", Ok 209715200);
                      ("c.iso", Ok 314572800)])
       "/data" eq_refl eq_refl)).
Defined.

End ReportShape.

(** ** Runs that raise, and what a run creates besides its folders *)
Section MaterializerExtras.
Import Pathlib Materializer.

Variable lower : string -> string.
Variable cwd : list string.


(** [mkdir] on the path of a regular file raises and changes nothing. *)
Lemma mkdir_on_file (anchor rparts : list string) (fs : fsmap) (c : string) :
  FS.stat fs (rparts ++ anchor) = Ok (File c) ->
  FS.mkdir anchor rparts fs = (Raise FileExistsError, fs).
Proof.
  intros Hs. rewrite mkdir_unfold. unfold try_except.
  destruct (rparts ++ anchor) as [|a parent] eqn:Hk; [done|].
  pose proof Hs as Hs'. apply stat_parent in Hs' as [Hp Hl].
  unfold FS.os_mkdir. rewrite Hp, Hl. simpl.
  unfold bind, FS.is_dir. by rewrite Hs.
Qed.

Lemma stat_suffix (fs : fsmap) (l k : list string) :
  FS.stat fs (l ++ k) = Ok Dir -> FS.stat fs k = Ok Dir.
Proof.
  induction l as [|a l IH]; simpl; [done|].
  intros H. apply IH.
  change (FS.stat fs (a :: l ++ k) = Ok Dir) in H.
  by apply stat_parent in H as [H _].
Qed.

Lemma key_joinpath_relative (p : Path) (n : string) :
  PyStr.startswith "/" n = false ->
  key cwd (joinpath p n) = rev (parts (parse n)) ++ key cwd p.
Proof.
  intros H. unfold joinpath, parse, splitroot. rewrite H. simpl.
  unfold key, anchor. simpl. by rewrite rev_app_distr, app_assoc.
Qed.


Lemma nodes_of_key (p : Path) (t : template) (k : string) :
  k ∈ template_keys t -> (joinpath p k, k) ∈ nodes p t.
Proof.
  induction t as [|n v rest IH]; simpl; [by intros ?%elem_of_nil|].
  intros [->|Hin]%elem_of_cons; [apply list_elem_of_here|].
  apply list_elem_of_further, elem_of_app. right. by apply IH.
Qed.

(** After a folder is made, its [README.md] is a regular file unless it
    was a directory before. *)
Lemma make_folder_readme_file (p : Path) (n : string) (fs fs_a : fsmap) :
  fs !! ("README.md" :: key cwd p) <> Some Dir ->
  make_folder lower cwd p n fs = (Ok tt, fs_a) ->
  exists c, fs_a !! ("README.md" :: key cwd p) = Some (File c)
            /\ FS.stat fs_a ("README.md" :: key cwd p) = Ok (File c).
Proof.
  intros Hno Ha.
  pose proof (make_folder_post _ _ _ _ _ _ _ Ha) as [Hsub Hok].
  destruct (Hok eq_refl) as [[Hd [x Hx]] Hnew].
  pose proof Hx as Hx'. apply stat_parent in Hx' as [_ Hl].
  destruct (fs !! ("README.md" :: key cwd p)) as [[|c]|] eqn:E.
  - done.
  - apply (lookup_weaken _ fs_a) in E; [|done]. exists c.
    split; [done|]. congruence.
  - rewrite (Hnew eq_refl) in Hl. injection Hl as <-. eauto.
Qed.

(** X5: a folder named [README.md] directly below the first folder of the
    template stops the run, unless a directory of that name is there
    beforehand: once the parent is made, its [README.md] is a regular file.
    The run never returns; and when [README.md] is the first name below the
    parent, the run raises [FileExistsError] right after making the
    parent.  The path of the parent has no [".."] component, so that the
    [README.md] looked up on the disk is the one of the parent. *)
Theorem X5_folder_named_README_md_aborts (base_path n : string)
  (sub : template) (rest : template) (fs : fsmap) :
  "README.md" ∈ template_keys sub ->
  ".." ∉ parts (joinpath (parse base_path) n) ->
  fs !! ("README.md" :: key cwd (joinpath (parse base_path) n)) <> Some Dir ->
  (forall (l : list string) (fs1 : fsmap),
     create_folder_structure lower cwd base_path (TEntry n (Sub sub) rest) false fs
     <> (Ok l, fs1))
  /\ (forall (sub_v : contents) (sub_rest : template) (fs_a : fsmap),
        sub = TEntry "README.md" sub_v sub_rest ->
        make_folder lower cwd (joinpath (parse base_path) n) n fs = (Ok tt, fs_a) ->
        create_folder_structure lower cwd base_path (TEntry n (Sub sub) rest)
          false fs
        = (Raise FileExistsError, fs_a)).
Proof.
  intros Hkey _ Hno. split.
  - intros l fs1 Hrun. rewrite create_folder_structure_wet in Hrun.
    destruct (make_folders lower cwd _ fs) as [[[]|e] d] eqn:E; [|done].
    injection Hrun as _ <-.
    pose proof (make_folders_post _ _ _ _ _ _ E) as [_ Hin].
    unfold make_folders in E. simpl nodes in E. simpl for_each in E.
    unfold bind at 1 in E. simpl fst in E. simpl snd in E.
    destruct (make_folder lower cwd (joinpath (parse base_path) n) n fs)
      as [[[]|e] fs_a] eqn:Ha; [|done].
    destruct (make_folder_readme_file _ _ _ _ Hno Ha) as (c & Hc & _).
    apply (make_folders_post lower cwd _ fs_a (Ok tt) d) in E as [Hsub _].
    apply (lookup_weaken _ d) in Hc; [|done].
    destruct (Hin eq_refl
                (joinpath (joinpath (parse base_path) n) "README.md",
                 "README.md")) as [Hd _].
    { simpl. apply list_elem_of_further, elem_of_app. left.
      by apply nodes_of_key. }
    simpl in Hd. rewrite key_readme in Hd.
    apply stat_parent in Hd as [_ Hd]. congruence.
  - intros sub_v sub_rest fs_a -> Ha. rewrite create_folder_structure_wet.
    unfold make_folders. simpl nodes. simpl for_each. unfold bind at 1.
    simpl fst. simpl snd. rewrite Ha.
    destruct (make_folder_readme_file _ _ _ _ Hno Ha) as (c & _ & Hc).
    unfold bind at 1, make_folder at 1, bind at 1, path_mkdir.
    rewrite (mkdir_on_file _ _ fs_a c); [done|].
    fold (key cwd (joinpath (joinpath (parse base_path) n) "README.md")).
    by rewrite key_readme.
Qed.

(** X6: a run that returns has made the base path a directory, with its
    missing ancestors, as soon as the first folder name of the template
    does not start with ['/']. *)
Theorem X6_base_directory_is_created (base_path n : string) (v : contents)
  (rest : template) (fs : fsmap) (l : list string) (fs1 : fsmap) :
  PyStr.startswith "/" n = false ->
  create_folder_structure lower cwd base_path (TEntry n v rest) false fs
  = (Ok l, fs1) ->
  FS.stat fs1 (key cwd (parse base_path)) = Ok Dir.
Proof.
  intros Hrel Hrun.
  rewrite create_folder_structure_wet in Hrun.
  destruct (make_folders lower cwd _ fs) as [[[]|e] d] eqn:E; [|done].
  injection Hrun as _ <-.
  apply make_folders_post in E as [_ Hin].
  destruct (Hin eq_refl (joinpath (parse base_path) n, n)) as [Hd _].
  { simpl. apply list_elem_of_here. }
  simpl in Hd. rewrite key_joinpath_relative in Hd by done.
  by apply stat_suffix in Hd.
Qed.

End MaterializerExtras.
(** ** [print_structure] *)
Section PrinterFacts.
Import Pathlib Materializer Printer.

Lemma for_each_map {S A B} (f : A -> B) (l : list A) (body : B -> M S unit)
  (s : S) :
  for_each l (fun x => body (f x)) s = for_each (List.map f l) body s.
Proof.
  revert s. induction l as [|x l IH]; intros s; simpl; [done|].
  unfold bind. destruct (body (f x) s) as [[[]|e] s1]; [apply IH|done].
Qed.

(** [print_structure] prints the lines of the template one after the
    other. *)
Lemma print_structure_lines
  (refuses : list string -> string -> option exn) (t : template) :
  forall (indent : Z) (out : list string),
    print_structure refuses t indent out
    = for_each (printed indent t) (print refuses) out.
Proof.
  induction t as [|n v IHv rest IHrest| |t' IH]
    using template_ind'
    with (P0 := fun v => match v with
                         | Sub t' => forall indent out,
                             print_structure refuses t' indent out
                             = for_each (printed indent t') (print refuses) out
                         | Items _ => True
                         end); try done.
  intros indent out. simpl. unfold bind at 1 3.
  destruct (print refuses (folder_line indent n) out) as [[[]|e] out1];
    [|done].
  rewrite for_each_app. unfold bind.
  destruct v as [items|t'].
  - destruct items as [|i items].
    + simpl. apply IHrest.
    + rewrite (for_each_map (item_line indent)).
      destruct (for_each _ (print refuses) out1) as [[[]|e] out2]; [|done].
      apply IHrest.
  - rewrite IHv.
    destruct (for_each _ (print refuses) out1) as [[[]|e] out2]; [|done].
    apply IHrest.
Qed.

(** Writing lines one after the other: every line is taken and written,
    or the first line that the stream refuses stops the writing with the
    exception of the stream. *)
Lemma print_lines (refuses : list string -> string -> option exn)
  (lines : list string) :
  forall out : list string,
    match for_each lines (print refuses) out with
    | (Ok _, out') =>
        out' = out ++ lines /\ taken refuses out lines = true
    | (Raise e, out') =>
        exists (written : list string) (line : string) (rest : list string),
          lines = written ++ line :: rest
          /\ out' = out ++ written
          /\ taken refuses out written = true
          /\ refuses (out ++ written) line = Some e
    end.
Proof.
  induction lines as [|x lines IH]; intros out; simpl.
  - by rewrite app_nil_r.
  - unfold bind, print at 1. destruct (refuses out x) as [e|] eqn:E.
    + exists [], x, lines. by rewrite app_nil_r.
    + specialize (IH (out ++ [x])).
      destruct (for_each lines _ (out ++ [x])) as [[[]|e] out'].
      * destruct IH as [-> Hall]. by rewrite <- app_assoc.
      * destruct IH as (written & line & rest & -> & -> & Hall & Hline).
        exists (x :: written), line, rest. simpl. rewrite E.
        rewrite <- !app_assoc in *. done.
Qed.

Lemma print_lines_taken (refuses : list string -> string -> option exn)
  (lines : list string) :
  forall out : list string,
    taken refuses out lines = true ->
    for_each lines (print refuses) out = (Ok tt, out ++ lines).
Proof.
  induction lines as [|x lines IH]; intros out; simpl.
  - by rewrite app_nil_r.
  - unfold bind, print at 1. destruct (refuses out x); [done|].
    intros H. rewrite (IH _ H). by rewrite <- app_assoc.
Qed.

Lemma taken_utf8 (lines out : list string) : taken utf8_stream out lines = true.
Proof. revert out. induction lines as [|x lines IH]; intros out; simpl; done. Qed.

Lemma print_structure_printed (t : template) (indent : Z)
  (out : list string) :
  print_structure utf8_stream t indent out = (Ok tt, out ++ printed indent t).
Proof.
  rewrite print_structure_lines. apply print_lines_taken, taken_utf8.
Qed.

Lemma length_printed (t : template) :
  forall indent, length (printed indent t) = (node_count t + item_count t)%nat.
Proof.
  induction t as [|n v IHv rest IHrest| |t' IH]
    using template_ind'
    with (P0 := fun v => match v with
                         | Sub t' => forall indent,
                             length (printed indent t')
                             = (node_count t' + item_count t')%nat
                         | Items _ => True
                         end); try done.
  intros indent. simpl. rewrite length_app, IHrest.
  destruct v as [items|t']; simpl.
  - rewrite length_map. lia.
  - rewrite IHv. lia.
Qed.

Lemma printed_rows (t : template) :
  forall indent,
    item_count t = 0%nat ->
    printed indent t
    = List.map (fun r => folder_line (fst r) (snd r)) (rows indent t).
Proof.
  induction t as [|n v IHv rest IHrest| |t' IH]
    using template_ind'
    with (P0 := fun v => match v with
                         | Sub t' => forall indent,
                             item_count t' = 0%nat ->
                             printed indent t'
                             = List.map (fun r => folder_line (fst r) (snd r))
                                 (rows indent t')
                         | Items _ => True
                         end); try done.
  intros indent Hc. simpl in *. rewrite map_app.
  rewrite IHrest by lia. f_equal. f_equal.
  destruct v as [items|t'].
  - destruct items; [done|simpl in Hc; lia].
  - apply IHv. lia.
Qed.

Lemma rows_names (t : template) :
  forall indent (cur : Path),
    List.map snd (rows indent t) = List.map snd (nodes cur t).
Proof.
  induction t as [|n v IHv rest IHrest| |t' IH]
    using template_ind'
    with (P0 := fun v => match v with
                         | Sub t' => forall indent (cur : Path),
                             List.map snd (rows indent t')
                             = List.map snd (nodes cur t')
                         | Items _ => True
                         end); try done.
  intros indent cur. simpl. rewrite !map_app.
  rewrite (IHrest indent cur). do 2 f_equal.
  destruct v as [items|t']; [done|]. apply IHv.
Qed.

(** X7: the lines of a template are one per folder and one per list item,
    at every level: [node_count + item_count] lines in all.
    [print_structure] returns exactly when the standard output takes each
    of them in turn, and then it has written them all, in order, after what
    was printed before.  Otherwise it raises the exception of the standard
    output for the first line that is refused, having written the lines
    before that one and none after it. *)
Theorem X7_print_structure_line_count
  (refuses : list string -> string -> option exn) (t : template)
  (indent : Z) (out : list string) :
  length (printed indent t) = (node_count t + item_count t)%nat
  /\ (taken refuses out (printed indent t) = true ->
      print_structure refuses t indent out = (Ok tt, out ++ printed indent t))
  /\ (forall out',
        print_structure refuses t indent out = (Ok tt, out') ->
        out' = out ++ printed indent t
        /\ taken refuses out (printed indent t) = true)
  /\ (forall e out',
        print_structure refuses t indent out = (Raise e, out') ->
        exists (written : list string) (line : string) (rest : list string),
          printed indent t = written ++ line :: rest
          /\ out' = out ++ written
          /\ taken refuses out written = true
          /\ refuses (out ++ written) line = Some e).
Proof.
  split; [apply length_printed|].
  rewrite print_structure_lines.
  split; [apply print_lines_taken|].
  pose proof (print_lines refuses (printed indent t) out) as H.
  split.
  - intros out' Hrun. by rewrite Hrun in H.
  - intros e out' Hrun. by rewrite Hrun in H.
Qed.

Lemma X7_witness :
  print_structure utf8_stream Catalog.by_date 0 ["before"]
  = (Ok tt, "before" :: printed 0 Catalog.by_date)
  /\ length (printed 0 Catalog.by_date) = 19%nat
  /\ (exists out',
        print_structure ascii_stream Catalog.by_date 0 ["before"]
        = (Raise UnicodeEncodeError, out')
        /\ exists (written : list string) (line : string)
                  (rest : list string),
             printed 0 Catalog.by_date = written ++ line :: rest
             /\ out' = ["before"] ++ written
             /\ taken ascii_stream ["before"] written = true
             /\ ascii_stream (["before"] ++ written) line
                = Some UnicodeEncodeError)
  /\ (exists out',
        print_structure (closing_stream 3) Catalog.by_date 0 ["before"]
        = (Raise (OSError 32), out')
        /\ length out' = 3%nat).
Proof.
  destruct (X7_print_structure_line_count utf8_stream Catalog.by_date 0
              ["before"]) as (Hlen & Hret & _ & _).
  split; [apply Hret; reflexivity|]. split; [exact Hlen|]. split.
  - destruct (print_structure ascii_stream Catalog.by_date 0 ["before"])
      as [r out'] eqn:E.
    assert (r = Raise UnicodeEncodeError) as ->.
    { apply (f_equal fst) in E. simpl in E. rewrite <- E.
      vm_compute. reflexivity. }
    exists out'. split; [reflexivity|].
    destruct (X7_print_structure_line_count ascii_stream Catalog.by_date 0
                ["before"]) as (_ & _ & _ & Hraise).
    exact (Hraise _ _ E).
  - destruct (print_structure (closing_stream 3) Catalog.by_date 0 ["before"])
      as [r out'] eqn:E.
    assert (r = Raise (OSError 32) /\ length out' = 3%nat) as [-> Hl].
    { pose proof (f_equal fst E) as E1. pose proof (f_equal snd E) as E2.
      simpl in E1, E2. rewrite <- E1, <- E2. vm_compute. done. }
    exists out'. split; [reflexivity|exact Hl].
Defined.

(** X8: for a template whose lists are all empty, as in the catalog, what
    [print_structure] shows on a standard output that takes every line is
    what [create_folder_structure] reports: one line per returned path, in
    the same order, the line made of the folder name of that path behind
    its indentation and the folder pictogram. *)
Theorem X8_printed_folders_match_created_folders (lower : string -> string)
  (cwd : list string)
  (base_path : string) (t : template) (indent : Z) (out : list string)
  (fs : fsmap) :
  item_count t = 0%nat ->
  exists (lines l : list string),
    print_structure utf8_stream t indent out = (Ok tt, out ++ lines)
    /\ create_folder_structure lower cwd base_path t true fs = (Ok l, fs)
    /\ length lines = length l
    /\ l = List.map (fun n => str (fst n)) (nodes (parse base_path) t)
    /\ lines = List.map (fun r => folder_line (fst r) (snd r)) (rows indent t)
    /\ List.map snd (rows indent t)
       = List.map snd (nodes (parse base_path) t).
Proof.
  intros Hc. exists (printed indent t), (preorder (parse base_path) t).
  split; [apply print_structure_printed|].
  split; [apply create_folder_structure_dry|].
  split; [rewrite length_printed, length_preorder; lia|].
  split; [done|]. split; [by apply printed_rows|]. apply rows_names.
Qed.

Lemma X8_witness :
  exists (lines l : list string),
    print_structure utf8_stream Catalog.by_date 0 [] = (Ok tt, [] ++ lines)
    /\ create_folder_structure PyStr.ascii_lower [] "/x" Catalog.by_date true ∅
       = (Ok l, ∅)
    /\ length lines = length l
    /\ l = List.map (fun n => str (fst n)) (nodes (parse "/x") Catalog.by_date)
    /\ lines = List.map (fun r => folder_line (fst r) (snd r))
                 (rows 0 Catalog.by_date)
    /\ List.map snd (rows 0 Catalog.by_date)
       = List.map snd (nodes (parse "/x") Catalog.by_date).
Proof.
  exact (X8_printed_folders_match_created_folders PyStr.ascii_lower []
           "/x" Catalog.by_date 0 [] ∅ eq_refl).
Defined.

End PrinterFacts.
(** ** The choice of the approach and the plan *)
Section PlanFacts.
Import Pathlib Analyzer Planner Cli.

(** [suggest_structure] on each string. *)
Lemma suggest_structure_cases (approach : string) :
  (approach ∈ approaches
   /\ exists t, suggest_structure approach = Ok t /\ t <> TEmpty)
  \/ ((approach ∉ approaches)
      /\ suggest_structure approach
         = Raise (ValueError ("Unknown approach: " +:+ approach))).
Proof.
  unfold suggest_structure, approaches. simpl.
  destruct (String.eqb_spec approach "by_type") as [->|H1].
  { left. split; [apply list_elem_of_here|by eexists]. }
  destruct (String.eqb_spec approach "by_project") as [->|H2].
  { left. split; [do 1 apply list_elem_of_further; apply list_elem_of_here|
                  by eexists]. }
  destruct (String.eqb_spec approach "by_date") as [->|H3].
  { left. split; [do 2 apply list_elem_of_further; apply list_elem_of_here|
                  by eexists]. }
  destruct (String.eqb_spec approach "hybrid_approach") as [->|H4].
  { left. split; [do 3 apply list_elem_of_further; apply list_elem_of_here|
                  by eexists]. }
  right. split; [|done]. intros Hin.
  repeat (apply elem_of_cons in Hin as [Heq|Hin]; [done|]).
  by apply elem_of_nil in Hin.
Qed.

(** X9: whatever is answered at the prompt, the approach [main] selects is
    one of the four names of the catalog, so that the call of
    [suggest_structure] that follows returns a template and never raises. *)
Theorem X9_selected_approach_is_in_the_catalog
  (int_of : string -> option Z) (choice : string) :
  select_approach int_of choice ∈ approaches
  /\ exists t, suggest_structure (select_approach int_of choice) = Ok t
               /\ t <> TEmpty.
Proof.
  assert (select_approach int_of choice ∈ approaches) as Hin.
  { unfold select_approach.
    assert ("hybrid_approach" ∈ approaches) as Hh
      by (do 3 apply list_elem_of_further; apply list_elem_of_here).
    destruct (negb _); [|done]. destruct (int_of choice) as [n|]; [|done].
    unfold list_index.
    destruct (0 <=? n - 1); [destruct (n - 1 <? _)|destruct (_ <=? n - 1)];
      try done.
    - destruct (nth_error approaches (Z.to_nat (n - 1))) eqn:E; [|done].
      apply list_elem_of_In. by apply nth_error_In in E.
    - destruct (nth_error approaches _) eqn:E; [|done].
      apply list_elem_of_In. by apply nth_error_In in E. }
  split; [done|].
  destruct (suggest_structure_cases (select_approach int_of choice))
    as [[_ H]|[H _]]; done.
Qed.

(** X10: the answer is an index into the list of four names, read the way
    Python reads an index: 1 to 4 select the names in order, 0 and the
    negative numbers down to -3 count from the end of the list, and every
    other number, like an answer that is no number or an empty answer,
    selects [hybrid_approach]. *)
Theorem X10_selection_by_number (int_of : string -> option Z)
  (choice : string) (n : Z) :
  choice <> "" -> int_of choice = Some n ->
  select_approach int_of choice
  = if decide (n = 1 \/ n = -3) then "by_type"
    else if decide (n = 2 \/ n = -2) then "by_project"
    else if decide (n = 3 \/ n = -1) then "by_date"
    else "hybrid_approach".
Proof.
  intros Hne Hn. unfold select_approach. rewrite Hn.
  apply String.eqb_neq in Hne. rewrite Hne. simpl negb. cbv iota.
  unfold list_index, approaches. simpl length.
  destruct (Z.leb_spec 0 (n - 1)).
  - destruct (Z.ltb_spec (n - 1) (Z.of_nat 4)).
    + assert (n = 1 \/ n = 2 \/ n = 3 \/ n = 4) as [-> | [-> | [-> | ->]]] by lia;
        repeat case_decide; try done; lia.
    + repeat case_decide; try done; lia.
  - destruct (Z.leb_spec (- Z.of_nat 4) (n - 1)).
    + assert (n = 0 \/ n = -1 \/ n = -2 \/ n = -3) as [-> | [-> | [-> | ->]]] by lia;
        repeat case_decide; try done; lia.
    + repeat case_decide; try done; lia.
Qed.

Lemma X10_witness :
  select_approach (fun _ => Some (-1)) "-1" = "by_date"
  /\ select_approach (fun _ => Some 0) "0" = "hybrid_approach"
  /\ select_approach (fun _ => Some 5) "5" = "hybrid_approach"
  /\ select_approach (fun _ => Some 2) "2" = "by_project".
Proof.
  split; [|split; [|split]].
  - exact (X10_selection_by_number (fun _ => Some (-1)) "-1" (-1)
             ltac:(discriminate) eq_refl).
  - exact (X10_selection_by_number (fun _ => Some 0) "0" 0
             ltac:(discriminate) eq_refl).
  - exact (X10_selection_by_number (fun _ => Some 5) "5" 5
             ltac:(discriminate) eq_refl).
  - exact (X10_selection_by_number (fun _ => Some 2) "2" 2
             ltac:(discriminate) eq_refl).
Defined.

Variable W : Type.
Variable now : string.
Variable dump : string -> plan -> M W unit.
Variable lower : string -> string.
Variable rule : suffix_rule.
Variable os : os_view.

(** X11: with an approach that is not in the catalog,
    [generate_organization_plan] raises and writes nothing, whatever output
    file is asked for.  The analysis runs first: when it returns, a report
    or the error dictionary of a missing path, the exception is the
    [ValueError] of [suggest_structure]; when it raises, the exception is
    the one of the analysis. *)
Theorem X11_plan_for_unknown_approach_writes_nothing
  (data_path approach : string) (output_file : option string) (w : W) :
  approach ∉ approaches ->
  exists e,
    generate_organization_plan W now dump lower rule os data_path approach
      output_file w
    = (Raise e, w)
    /\ (forall a, analyze_existing_data lower rule os data_path = Ok a ->
                  e = ValueError ("Unknown approach: " +:+ approach))
    /\ (forall e', analyze_existing_data lower rule os data_path = Raise e' ->
                   e = e').
Proof.
  intros Hnot. unfold generate_organization_plan, bind, pure_call.
  destruct (analyze_existing_data lower rule os data_path) as [a|e0].
  - destruct (suggest_structure_cases approach) as [[H _]|[_ ->]]; [done|].
    eexists. split; [done|]. split; [done|]. by intros e'.
  - exists e0. split; [done|]. split; [done|]. by intros e' [= ->].
Qed.

(** X12: with an approach of the catalog the plan is made whenever the
    analysis returns, also when the data path does not exist: its analysis
    is then the error dictionary.  The plan holds the data path and the
    approach as they were given, the template of the approach and the six
    steps.  It is dumped when the output file is a non-empty string, and
    only then; the call returns the plan that was dumped, or raises what
    the dump raised.  When the analysis raises, the call raises the same
    exception and nothing is dumped. *)
Theorem X12_plan_for_catalog_approach (data_path approach : string)
  (output_file : option string) (w : W) (t : template) :
  suggest_structure approach = Ok t ->
  length the_steps = 6%nat
  /\ (forall a,
        analyze_existing_data lower rule os data_path = Ok a ->
        generate_organization_plan W now dump lower rule os data_path approach
          output_file w
        = match output_file with
          | Some f =>
              if String.eqb f "" then
                (Ok (Plan now data_path approach a t the_steps), w)
              else
                match dump f (Plan now data_path approach a t the_steps) w with
                | (Ok _, w') =>
                    (Ok (Plan now data_path approach a t the_steps), w')
                | (Raise e, w') => (Raise e, w')
                end
          | None => (Ok (Plan now data_path approach a t the_steps), w)
          end)
  /\ (forall e,
        analyze_existing_data lower rule os data_path = Raise e ->
        generate_organization_plan W now dump lower rule os data_path approach
          output_file w
        = (Raise e, w))
  /\ (path_exists os (parse data_path) = Ok false ->
      analyze_existing_data lower rule os data_path
      = Ok (ErrorDict ("Path " +:+ str (parse data_path)
                       +:+ " does not exist"))).
Proof.
  intros Ht. split; [done|]. split; [|split].
  - intros a Ha.
    unfold generate_organization_plan, bind, pure_call. rewrite Ha, Ht.
    destruct output_file as [f|]; [|done].
    destruct (String.eqb f ""); simpl; [done|].
    by destruct (dump f _ w) as [[[]|e] w'].
  - intros e He.
    unfold generate_organization_plan, bind, pure_call. by rewrite He.
  - apply analyze_missing.
Qed.

End PlanFacts.

(** ** Paths and their strings *)
Section PathRoundTrip.
Import Pathlib Materializer.

Lemma split_no_sep_components sep s :
  Forall (fun c => PyStr.contains sep c = false) (PyStr.split sep s).
Proof.
  induction s as [|a s IH]; simpl; [by repeat constructor|].
  destruct (Ascii.eqb a sep) eqn:E; [by constructor|].
  destruct (PyStr.split sep s) as [|w ws]; [by repeat constructor; simpl; rewrite E|].
  inversion IH; subst. constructor; [|done]. simpl. by rewrite E.
Qed.

Lemma split_without_sep sep w :
  PyStr.contains sep w = false -> PyStr.split sep w = [w].
Proof.
  induction w as [|a w IH]; simpl; [done|].
  intros [Ha Hw]%orb_false_iff. by rewrite Ha, (IH Hw).
Qed.

Lemma split_app_sep sep w s :
  PyStr.contains sep w = false ->
  PyStr.split sep (w +:+ String sep s) = w :: PyStr.split sep s.
Proof.
  induction w as [|a w IH]; simpl.
  - intros _. by rewrite Ascii.eqb_refl.
  - intros [Ha Hw]%orb_false_iff. by rewrite Ha, (IH Hw).
Qed.

Lemma split_join (l : list string) :
  l <> [] -> Forall (fun c => PyStr.contains "/" c = false) l ->
  PyStr.split "/" (PyStr.join "/" l) = l.
Proof.
  induction l as [|w l IH]; [done|]. intros _ Hall.
  inversion Hall as [|? ? Hw Hl]; subst.
  destruct l as [|w2 l].
  - simpl. by apply split_without_sep.
  - change (PyStr.join "/" (w :: w2 :: l))
      with (w +:+ String "/" (PyStr.join "/" (w2 :: l))).
    rewrite split_app_sep by done. f_equal. by apply IH.
Qed.

Lemma components_wf rel : Forall wf_component (components rel).
Proof.
  unfold components. apply Forall_forall. intros c Hin.
  apply list_elem_of_In, filter_In in Hin as [Hin Hc].
  apply andb_true_iff in Hc as [H1 H2].
  apply negb_true_iff, String.eqb_neq in H1, H2.
  split; [done|]. split; [done|].
  pose proof (split_no_sep_components "/" rel) as Hall.
  rewrite Forall_forall in Hall. apply Hall. by apply list_elem_of_In.
Qed.

Lemma components_join (l : list string) :
  Forall wf_component l -> components (PyStr.join "/" l) = l.
Proof.
  intros Hall. destruct l as [|w l]; [done|].
  unfold components. rewrite split_join; [|done|].
  - apply forallb_filter_id. apply forallb_forall. intros c Hin.
    rewrite Forall_forall in Hall.
    destruct (Hall c) as (H1 & H2 & _); [by apply list_elem_of_In|].
    apply String.eqb_neq in H1, H2. by rewrite H1, H2.
  - eapply Forall_impl; [exact Hall|]. by intros c (_ & _ & Hc).
Qed.

Lemma join_head (l : list string) :
  Forall wf_component l ->
  PyStr.startswith "/" (PyStr.join "/" l) = false
  /\ PyStr.lstrip "/" (PyStr.join "/" l) = PyStr.join "/" l
  /\ (l <> [] -> PyStr.join "/" l <> "").
Proof.
  intros Hall. destruct l as [|w l]; [done|].
  inversion Hall as [|? ? (Hne & _ & Hc) _]; subst.
  destruct w as [|a w]; [done|]. simpl in Hc.
  apply orb_false_iff in Hc as [Ha _].
  assert (exists s, PyStr.join "/" (String a w :: l) = String a s) as [s ->].
  { destruct l; simpl; eauto. }
  simpl. by rewrite Ha.
Qed.

Lemma parse_wf s : wf_path (parse s).
Proof.
  unfold parse, splitroot.
  destruct (PyStr.startswith "/" s); [destruct (_ =? 2)|]; simpl;
    (split; [auto|apply components_wf]).
Qed.

Lemma joinpath_wf p s : wf_path p -> wf_path (joinpath p s).
Proof.
  intros [Hr Hp]. unfold joinpath.
  pose proof (parse_wf s) as [Hr' Hp'].
  destruct (String.eqb (root (parse s)) ""); [|by split].
  split; [done|]. simpl. by apply Forall_app.
Qed.

(** Reading back the string of a path gives the path. *)
Lemma parse_str (p : Path) : wf_path p -> parse (str p) = p.
Proof.
  destruct p as [r l]. intros [Hr Hl]. simpl in Hr, Hl.
  destruct (join_head l Hl) as (Hs & Hstrip & Hne).
  unfold str. simpl root. simpl parts.
  destruct Hr as [-> | [-> | ->]].
  - change ("" +:+ PyStr.join "/" l) with (PyStr.join "/" l).
    destruct l as [|w l]; [done|].
    apply String.eqb_neq in Hne; [|done]. rewrite Hne.
    unfold parse, splitroot. rewrite Hs. by rewrite components_join.
  - change ("/" +:+ PyStr.join "/" l) with (String "/" (PyStr.join "/" l)).
    change (String.eqb (String "/" (PyStr.join "/" l)) "") with false.
    cbv iota. unfold parse, splitroot.
    change (PyStr.startswith "/" (String "/" (PyStr.join "/" l))) with true.
    change (PyStr.lstrip "/" (String "/" (PyStr.join "/" l)))
      with (PyStr.lstrip "/" (PyStr.join "/" l)).
    rewrite Hstrip. unfold PyStr.len. simpl String.length.
    destruct (Z.eqb_spec (Z.of_nat (S (String.length (PyStr.join "/" l)))
                          - Z.of_nat (String.length (PyStr.join "/" l))) 2);
      [lia|].
    by rewrite components_join.
  - change ("//" +:+ PyStr.join "/" l)
      with (String "/" (String "/" (PyStr.join "/" l))).
    change (String.eqb (String "/" (String "/" (PyStr.join "/" l))) "")
      with false.
    cbv iota. unfold parse, splitroot.
    change (PyStr.startswith "/" (String "/" (String "/" (PyStr.join "/" l))))
      with true.
    change (PyStr.lstrip "/" (String "/" (String "/" (PyStr.join "/" l))))
      with (PyStr.lstrip "/" (PyStr.join "/" l)).
    rewrite Hstrip. unfold PyStr.len. simpl String.length.
    destruct (Z.eqb_spec
                (Z.of_nat (S (S (String.length (PyStr.join "/" l))))
                 - Z.of_nat (String.length (PyStr.join "/" l))) 2); [|lia].
    by rewrite components_join.
Qed.

Lemma nodes_wf (t : template) :
  forall cur, wf_path cur -> Forall (fun n => wf_path (fst n)) (nodes cur t).
Proof.
  induction t as [|n v IHv rest IHrest| |t' IH]
    using template_ind'
    with (P0 := fun v => match v with
                         | Sub t' => forall cur, wf_path cur ->
                             Forall (fun n => wf_path (fst n)) (nodes cur t')
                         | Items _ => True
                         end); try done.
  intros cur Hcur. simpl. constructor; [by apply joinpath_wf|].
  apply Forall_app. split; [|by apply IHrest].
  destruct v as [items|t']; [constructor|].
  apply IHv. by apply joinpath_wf.
Qed.

End PathRoundTrip.

(** ** The strings a run returns *)
Section ReturnedStrings.
Import Pathlib Materializer.

(** X13: each string that [create_folder_structure] returns is the string
    of the path of a folder node, in the form [Path] gives it: read back as
    a path and turned into a string again it is unchanged.  After a run
    that created folders, the path it names is a directory that holds a
    [README.md]. *)
Theorem X13_returned_strings_name_the_folders (lower : string -> string)
  (cwd : list string)
  (base_path : string) (structure : template) (dry_run : bool) (fs : fsmap)
  (l : list string) (fs1 : fsmap) (s : string) :
  create_folder_structure lower cwd base_path structure dry_run fs = (Ok l, fs1) ->
  s ∈ l ->
  str (parse s) = s
  /\ (exists n, (parse s, n) ∈ nodes (parse base_path) structure)
  /\ (dry_run = false -> in_place cwd fs1 (parse s)).
Proof.
  intros Hrun Hs.
  assert (l = preorder (parse base_path) structure
          /\ (dry_run = false ->
              forall pn, pn ∈ nodes (parse base_path) structure ->
                         in_place cwd fs1 (fst pn))) as [-> Hplace].
  { destruct dry_run.
    - rewrite create_folder_structure_dry in Hrun. by injection Hrun as <- _.
    - rewrite create_folder_structure_wet in Hrun.
      destruct (make_folders lower cwd _ fs) as [[[]|e] d] eqn:E; [|done].
      injection Hrun as <- <-. split; [done|]. intros _.
      apply make_folders_post in E as [_ Hin]. by apply Hin. }
  unfold preorder in Hs. apply list_elem_of_fmap in Hs as ([p n] & -> & Hin).
  simpl.
  pose proof (nodes_wf structure (parse base_path) (parse_wf base_path))
    as Hwf.
  rewrite Forall_forall in Hwf. specialize (Hwf _ Hin). simpl in Hwf.
  rewrite (parse_str p Hwf). split; [done|]. split; [by exists n|].
  intros Hd. by apply (Hplace Hd (p, n)).
Qed.

End ReturnedStrings.

(** ** Instances of the properties above *)
Section Instances.
Import Pathlib Materializer Analyzer Planner Cli Spec.


Lemma X5_witness :
  exists fs_a : fsmap,
    make_folder PyStr.ascii_lower [] (joinpath (parse "/b") "a") "a" ∅
    = (Ok tt, fs_a)
    /\ (forall (l : list string) (fs1 : fsmap),
          create_folder_structure PyStr.ascii_lower [] "/b"
            readme_first_template false ∅
          <> (Ok l, fs1))
    /\ create_folder_structure PyStr.ascii_lower [] "/b"
         readme_first_template false ∅
       = (Raise FileExistsError, fs_a).
Proof.
  destruct (make_folder PyStr.ascii_lower [] (joinpath (parse "/b") "a") "a"
              ∅) as [r fs_a] eqn:E.
  assert (r = Ok tt) as ->.
  { apply (f_equal fst) in E. simpl in E. rewrite <- E.
    vm_compute. reflexivity. }
  exists fs_a. split; [reflexivity|].
  assert (".." ∉ parts (joinpath (parse "/b") "a")) as Hdots.
  { change (".." ∉ ["b"; "a"]). intros Hin.
    repeat (apply elem_of_cons in Hin as [Heq|Hin]; [discriminate Heq|]).
    by apply elem_of_nil in Hin. }
  destruct (X5_folder_named_README_md_aborts PyStr.ascii_lower [] "/b" "a"
              (D [("README.md", Items []); ("ok", Items [])]) TEmpty ∅)
    as [Hnever Hfirst].
  - simpl. apply list_elem_of_here.
  - exact Hdots.
  - by rewrite lookup_empty.
  - split; [exact Hnever|].
    exact (Hfirst (Items []) (D [("ok", Items [])]) fs_a eq_refl E).
Defined.

Lemma X6_witness :
  exists (l : list string) (fs1 : fsmap),
    create_folder_structure PyStr.ascii_lower [] "/srv/data" sample_template
      false ∅
    = (Ok l, fs1)
    /\ FS.stat fs1 (key [] (parse "/srv/data")) = Ok Dir.
Proof.
  destruct (create_folder_structure PyStr.ascii_lower [] "/srv/data"
              sample_template false ∅) as [r fs1] eqn:E.
  assert (r = Ok ["/srv/data/My_Docs"; "/srv/data/My_Docs/Old_Stuff"]) as ->.
  { apply (f_equal fst) in E. simpl in E. rewrite <- E.
    vm_compute. reflexivity. }
  exists ["/srv/data/My_Docs"; "/srv/data/My_Docs/Old_Stuff"], fs1.
  split; [reflexivity|].
  exact (X6_base_directory_is_created PyStr.ascii_lower [] "/srv/data"
           "My_Docs" (Sub (D [("Old_Stuff", Items [])])) TEmpty ∅ _ fs1
           eq_refl E).
Defined.

Lemma X11_witness :
  generate_organization_plan (list (string * plan)) "2024-01-01T00:00:00"
    record_dump PyStr.ascii_lower ByRfind empty_view "/data" "by_size"
    (Some "plan.json") []
  = (Raise (ValueError "Unknown approach: by_size"), [])
  /\ generate_organization_plan (list (string * plan)) "2024-01-01T00:00:00"
       record_dump PyStr.ascii_lower ByRfind (unsearchable_dir_view "x.bin")
       "/data" "by_size" (Some "plan.json") []
     = (Raise PermissionError, []).
Proof.
  assert ("by_size" ∉ approaches) as Hnot.
  { intros Hin.
    repeat (apply elem_of_cons in Hin as [Heq|Hin]; [discriminate Heq|]).
    by apply elem_of_nil in Hin. }
  split.
  - destruct (X11_plan_for_unknown_approach_writes_nothing
                (list (string * plan)) "2024-01-01T00:00:00" record_dump
                PyStr.ascii_lower ByRfind empty_view "/data" "by_size"
                (Some "plan.json") [] Hnot) as (e & Hrun & Hok & _).
    rewrite Hrun. f_equal. f_equal. exact (Hok _ eq_refl).
  - destruct (X11_plan_for_unknown_approach_writes_nothing
                (list (string * plan)) "2024-01-01T00:00:00" record_dump
                PyStr.ascii_lower ByRfind (unsearchable_dir_view "x.bin")
                "/data" "by_size" (Some "plan.json") [] Hnot)
      as (e & Hrun & _ & Hraise).
    rewrite Hrun. f_equal. f_equal. exact (Hraise _ eq_refl).
Defined.

Lemma X12_witness :
  generate_organization_plan (list (string * plan))
    "2024-01-01T00:00:00" record_dump PyStr.ascii_lower ByRfind empty_view
    "/no/such/dir" "by_date" (Some "plan.json") []
  = (Ok (Plan "2024-01-01T00:00:00" "/no/such/dir" "by_date"
           (ErrorDict "Path /no/such/dir does not exist")
           Catalog.by_date the_steps),
     [("plan.json",
       Plan "2024-01-01T00:00:00" "/no/such/dir" "by_date"
         (ErrorDict "Path /no/such/dir does not exist")
         Catalog.by_date the_steps)]).
Proof.
  destruct (X12_plan_for_catalog_approach (list (string * plan))
              "2024-01-01T00:00:00" record_dump PyStr.ascii_lower ByRfind
              empty_view "/no/such/dir" "by_date" (Some "plan.json") []
              Catalog.by_date eq_refl) as (_ & Hplan & _ & Hmiss).
  exact (Hplan _ (Hmiss eq_refl)).
Defined.

Lemma X13_witness :
  exists (l : list string) (fs1 : fsmap),
    create_folder_structure PyStr.ascii_lower [] "/srv/data" sample_template
      false sample_disk
    = (Ok l, fs1)
    /\ str (parse "/srv/data/My_Docs/Old_Stuff")
       = "/srv/data/My_Docs/Old_Stuff"
    /\ (exists n, (parse "/srv/data/My_Docs/Old_Stuff", n)
                  ∈ nodes (parse "/srv/data") sample_template)
    /\ (false = false ->
        in_place [] fs1 (parse "/srv/data/My_Docs/Old_Stuff")).
Proof.
  destruct (create_folder_structure PyStr.ascii_lower [] "/srv/data"
              sample_template false sample_disk) as [r fs1] eqn:E.
  assert (r = Ok ["/srv/data/My_Docs"; "/srv/data/My_Docs/Old_Stuff"]) as ->.
  { apply (f_equal fst) in E. simpl in E. rewrite <- E.
    vm_compute. reflexivity. }
  exists ["/srv/data/My_Docs"; "/srv/data/My_Docs/Old_Stuff"], fs1.
  split; [reflexivity|].
  apply (X13_returned_strings_name_the_folders PyStr.ascii_lower []
           "/srv/data" sample_template false sample_disk _ fs1 _ E).
  apply list_elem_of_further, list_elem_of_here.
Defined.

End Instances.
